(** * The dashboard query builder (src/server/api/services/query-builder.ts)

    A shallow embedding of the query compiler: a validated query description
    is turned into one parameterised SQL statement, and the rows that come
    back are normalised.  The statement is a [Prisma.Sql] value, modelled
    below as the sequence of its raw text pieces and bound values. *)

From Stdlib Require Import List String Ascii Bool Arith ZArith Lia.
From Stdlib Require Import DecimalString.
From Stdlib Require Import SpecFloat.
Import ListNotations.

Open Scope string_scope.
Open Scope list_scope.
Open Scope nat_scope.

Set Implicit Arguments.

(** String concatenation, kept apart from list concatenation. *)
Infix "^^" := String.append (at level 60, right associativity).

(* ================================================================== *)
(** ** JavaScript strings and numbers *)

(** The double quote character, which the SQL text uses around aliases. *)
Definition dquote : string :=
  String (Ascii false true false false false true false false) EmptyString.

Definition newline : string :=
  String (Ascii false true false true false false false false) EmptyString.

(** [toUpperCase] and [toLowerCase] on the ASCII letters.  Aggregation
    keywords and registry column names are ASCII identifiers. *)
Definition upperAscii (c : ascii) : ascii :=
  let n := nat_of_ascii c in
  if (97 <=? n) && (n <=? 122) then ascii_of_nat (n - 32) else c.

Definition lowerAscii (c : ascii) : ascii :=
  let n := nat_of_ascii c in
  if (65 <=? n) && (n <=? 90) then ascii_of_nat (n + 32) else c.

Fixpoint toUpperCase (s : string) : string :=
  match s with
  | EmptyString => EmptyString
  | String c r => String (upperAscii c) (toUpperCase r)
  end.

Fixpoint toLowerCase (s : string) : string :=
  match s with
  | EmptyString => EmptyString
  | String c r => String (lowerAscii c) (toLowerCase r)
  end.

(** [str.charAt(0)] and [str.slice(1)]. *)
Definition charAt0 (s : string) : string :=
  match s with
  | EmptyString => EmptyString
  | String c _ => String c EmptyString
  end.

Definition slice1 (s : string) : string :=
  match s with
  | EmptyString => EmptyString
  | String _ r => r
  end.

(** function capitalizeFirstLetter(str)
      return str.charAt(0).toUpperCase() + str.slice(1) *)
Definition capitalizeFirstLetter (str : string) : string :=
  toUpperCase (charAt0 str) ^^ slice1 str.

(** A JavaScript number is an IEEE 754 binary64 value. *)
Definition number : Type := spec_float.

Definition prec64 : Z := 53.
Definition emax64 : Z := 1024.

(** The number nearest to an integer (round to nearest, ties to even):
    what [Number(bigint)] returns. *)
Definition numberOfZ (z : Z) : number :=
  binary_normalize prec64 emax64 z 0 false.

(** Truthiness of a number in a condition: [0], [-0] and [NaN] are falsy. *)
Definition truthyNumber (n : number) : bool :=
  match n with
  | S754_zero _ => false
  | S754_nan => false
  | _ => true
  end.

(** Truthiness of a string: only the empty string is falsy. *)
Definition truthyString (s : string) : bool :=
  match s with
  | EmptyString => false
  | String _ _ => true
  end.

(* ================================================================== *)
(** ** Errors and the result monad *)

(** The exceptions the module throws, and the [TypeError] of
    [Prisma.join] on an empty array. *)
Inductive Error :=
| MultipleDatetimeGroupBy
| MismatchedRangeColumn
| ColumnNotFoundInTable (column table : string)
| ColumnNotFound (column : string)
| JoinEmptyArray
| UnknownType (typeofVal : string).

Definition errorMessage (e : Error) : string :=
  match e with
  | MultipleDatetimeGroupBy => "Only one datetime group by is supported"
  | MismatchedRangeColumn =>
      "Min date column, max date column must match group by column"
  | ColumnNotFoundInTable c t =>
      "Column " ^^ c ^^ " not found in table " ^^ t
  | ColumnNotFound c => "Column " ^^ c ^^ " not found"
  | JoinEmptyArray =>
      "Expected `join([])` to be called with an array of multiple elements, but got an empty array"
  | UnknownType t => "Unknown type " ^^ t
  end.

Inductive result (A : Type) :=
| Ok (a : A)
| Err (e : Error).

Arguments Ok {A} a.
Arguments Err {A} e.

Definition bind {A B} (r : result A) (k : A -> result B) : result B :=
  match r with
  | Ok a => k a
  | Err e => Err e
  end.

Notation "x <- r ;; k" := (bind r (fun x => k))
  (at level 61, r at next level, right associativity).

(** [xs.map(f)] where [f] may throw: the first exception wins. *)
Fixpoint mapM {A B} (f : A -> result B) (xs : list A) : result (list B) :=
  match xs with
  | [] => Ok []
  | x :: r => y <- f x ;; ys <- mapM f r ;; Ok (y :: ys)
  end.

Definition resultMap {A B} (f : A -> B) (r : result A) : result B :=
  match r with
  | Ok a => Ok (f a)
  | Err e => Err e
  end.

(* ================================================================== *)
(** ** Data model *)

(** The logical tables of [sqlInterface.shape.from], as the switch of
    [getMandatoryFilter] enumerates them. *)
Inductive TableName :=
| traces
| traces_observations
| observations
| traces_scores
| traces_parent_observation_scores.

Definition tableNameString (t : TableName) : string :=
  match t with
  | traces => "traces"
  | traces_observations => "traces_observations"
  | observations => "observations"
  | traces_scores => "traces_scores"
  | traces_parent_observation_scores => "traces_parent_observation_scores"
  end.

(** The [type] tag of filters and group-bys. *)
Inductive ValueType := TString | TNumber | TDatetime.

Definition isDatetime (t : ValueType) : bool :=
  match t with
  | TDatetime => true
  | _ => false
  end.

(** A literal value: a string, a number, or a [Date] (its time value in
    milliseconds). *)
Inductive Value :=
| VString (s : string)
| VNumber (n : number)
| VDate (ms : Z).

Record ColumnDefinition := {
  name : string;
  ctype : ValueType;
  internal : string
}.

Record TableDefinition := {
  table : string;
  columns : list ColumnDefinition
}.

Record Filter := {
  f_type : ValueType;
  f_column : string;
  f_operator : string;
  f_value : Value
}.

Record GroupBy := {
  g_type : ValueType;
  g_column : string;
  g_temporalUnit : option string
}.

Record SelectField := {
  s_column : string;
  s_agg : option string
}.

Record OrderBy := {
  o_column : string;
  o_agg : option string;
  o_direction : string
}.

(** z.TypeOf<typeof sqlInterface>, after validation. *)
Record Query := {
  q_from : TableName;
  q_select : list SelectField;
  q_filter : option (list Filter);
  q_groupBy : option (list GroupBy);
  q_orderBy : option (list OrderBy);
  q_limit : option number
}.

(** [x ?? []] *)
Definition orEmpty {A} (o : option (list A)) : list A :=
  match o with
  | Some l => l
  | None => []
  end.

(** An optional aggregation in a condition: present and not empty. *)
Definition truthyAgg (agg : option string) : option string :=
  match agg with
  | Some a => if truthyString a then Some a else None
  | None => None
  end.

(* ================================================================== *)
(** ** Prisma.Sql *)

(** A statement under construction: raw text pieces and bound values in
    the order they occur.  [Prisma.sql`a${x}b`] is the text [a], then [x]
    (spliced in if it is itself a [Sql], bound if it is a value), then the
    text [b].  Empty text pieces are left out: they add nothing to the
    text, nor to the values. *)
Inductive Frag :=
| Raw (s : string)
| Bind (v : Value).

Definition Sql : Type := list Frag.

(** Prisma.raw(s) *)
Definition raw (s : string) : Sql := [Raw s].

(** A bound value [${v}]. *)
Definition val (v : Value) : Sql := [Bind v].

(** Prisma.empty, the statement with empty text and no value. *)
Definition empty : Sql := [].

(** Prisma.join(values, separator): throws on an empty array. *)
Definition join (values : list Sql) (separator : string) : result Sql :=
  match values with
  | [] => Err JoinEmptyArray
  | x :: r => Ok (x ++ flat_map (fun y => Raw separator :: y) r)
  end.

(** The bound parameter list, [sql.values]. *)
Fixpoint sqlValues (q : Sql) : list Value :=
  match q with
  | [] => []
  | Raw _ :: r => sqlValues r
  | Bind v :: r => v :: sqlValues r
  end.

Definition placeholder (n : nat) : string :=
  "$" ^^ NilZero.string_of_uint (Nat.to_uint n).

(** The statement text, [sql.text]: the i-th bound value is written [$i]. *)
Fixpoint render (n : nat) (q : Sql) : string :=
  match q with
  | [] => EmptyString
  | Raw s :: r => s ^^ render n r
  | Bind _ :: r => placeholder n ^^ render (S n) r
  end.

Definition sqlText (q : Sql) : string := render 1 q.

(* ================================================================== *)
(** ** The compiler *)

Section Compiler.

(** The registry [tableDefinitions] (./tableDefinitions), a static lookup
    from each logical table to its source expression and columns.  The
    compiler only reads it. *)
Variable tableDefinitions : TableName -> TableDefinition.

(** columns.find((c) => c.name === column) *)
Definition findColumn (cols : list ColumnDefinition) (column : string)
  : option ColumnDefinition :=
  find (fun c => String.eqb (name c) column) cols.

(** const getTableSql = (tableUnsafe) =>
      Prisma.raw(tableDefinitions[table]!.table) *)
Definition getTableSql (t : TableName) : Sql :=
  raw (table (tableDefinitions t)).

(** const getColumnDefinition = (tableUnsafe, column) => ...
    throws "Column ... not found in table ..." when the find fails. *)
Definition getColumnDefinition (t : TableName) (column : string)
  : result ColumnDefinition :=
  match findColumn (columns (tableDefinitions t)) column with
  | Some foundColumn => Ok foundColumn
  | None => Err (ColumnNotFoundInTable column (tableNameString t))
  end.

(** const getInternalSql = (colDef) => Prisma.raw(colDef.internal) *)
Definition getInternalSql (colDef : ColumnDefinition) : Sql :=
  raw (internal colDef).

(** const getMandatoryFilter = (tableUnsafe, projectId) => ... *)
Definition observationFilter (projectId : string) : Filter :=
  {| f_type := TString;
     f_column := "observationsProjectId";
     f_operator := "=";
     f_value := VString projectId |}.

Definition traceFilter (projectId : string) : Filter :=
  {| f_type := TString;
     f_column := "tracesProjectId";
     f_operator := "=";
     f_value := VString projectId |}.

Definition getMandatoryFilter (t : TableName) (projectId : string)
  : list Filter :=
  match t with
  | traces | traces_scores => [traceFilter projectId]
  | traces_observations | traces_parent_observation_scores =>
      [traceFilter projectId; observationFilter projectId]
  | observations => [observationFilter projectId]
  end.

(** function isTimeRangeFilter(filter) { return filter.type === "datetime" } *)
Definition isTimeRangeFilter (f : Filter) : bool := isDatetime (f_type f).

Definition isLowerBound (x : Filter) : bool :=
  String.eqb (f_operator x) ">" || String.eqb (f_operator x) ">=".

Definition isUpperBound (x : Filter) : bool :=
  String.eqb (f_operator x) "<" || String.eqb (f_operator x) "<=".

(** const minDateColumn = dateTimeFilters.length > 1
      ? dateTimeFilters.find((x) => x.operator === ">" || x.operator === ">=")
      : undefined *)
Definition minDateColumn (filters : list Filter) : option Filter :=
  let dateTimeFilters := List.filter isTimeRangeFilter filters in
  if 1 <? List.length dateTimeFilters
  then find isLowerBound dateTimeFilters
  else None.

(** const maxDateColumn = dateTimeFilters.length > 1
      ? dateTimeFilters.find((x) => x.operator === "<" || x.operator === "<=")
      : undefined *)
Definition maxDateColumn (filters : list Filter) : option Filter :=
  let dateTimeFilters := List.filter isTimeRangeFilter filters in
  if 1 <? List.length dateTimeFilters
  then find isUpperBound dateTimeFilters
  else None.

(** What [createDateRangeCte] returns when it builds a series:
    [{ cte: cteString, from: modifiedFrom, column: startColumn }]. *)
Record BucketPlan := {
  p_cte : Sql;
  p_from : Sql;
  p_column : ColumnDefinition
}.

(** The WITH clause of the generated series, whitespace as in the source. *)
Definition cteString (minValue maxValue : Value) (temporalUnit : string)
  : Sql :=
  raw (newline ^^ "      WITH date_series AS (" ^^ newline
       ^^ "        SELECT generate_series(")
  ++ val minValue ++ raw ", " ++ val maxValue
  ++ raw ", '1 " ++ raw temporalUnit
  ++ raw ("') as date" ^^ newline ^^ "      )" ^^ newline ^^ "    ").

(** The join of the series with the table on the truncated timestamps. *)
Definition modifiedFrom (t : TableName) (temporalUnit : string)
  (startColumn : ColumnDefinition) : Sql :=
  raw " FROM date_series LEFT JOIN " ++ getTableSql t
  ++ raw " ON DATE_TRUNC('" ++ raw temporalUnit ++ raw "', "
  ++ getInternalSql startColumn
  ++ raw ") = DATE_TRUNC('" ++ raw temporalUnit
  ++ raw ("', date_series." ^^ dquote ^^ "date" ^^ dquote ^^ ")").

(** const createDateRangeCte = (fromUnsafe, filtersUnsafe, groupByUnsafe) *)
Definition createDateRangeCte (from : TableName) (filters : list Filter)
  (groupBy : list GroupBy) : result (option BucketPlan) :=
  let groupByColumns := List.filter (fun x => isDatetime (g_type x)) groupBy in
  match groupByColumns with
  | [] => Ok None
  | _ :: _ :: _ => Err MultipleDatetimeGroupBy
  | [groupByColumn] =>
      match g_temporalUnit groupByColumn,
            minDateColumn filters, maxDateColumn filters with
      | Some temporalUnit, Some minDate, Some maxDate =>
          if negb (String.eqb (f_column minDate) (g_column groupByColumn))
             || negb (String.eqb (f_column maxDate) (g_column groupByColumn))
          then Err MismatchedRangeColumn
          else
            startColumn <- getColumnDefinition from (f_column minDate) ;;
            Ok (Some {| p_cte := cteString (f_value minDate)
                                   (f_value maxDate) temporalUnit;
                        p_from := modifiedFrom from temporalUnit startColumn;
                        p_column := startColumn |})
      | _, _, _ => Ok None
      end
  end.

(** The series expression [date_series."date"]. *)
Definition dateSeries : string :=
  "date_series." ^^ dquote ^^ "date" ^^ dquote.

(** const prepareGroupBy = (table, groupBy) => ...
    The column is resolved first, whatever the type of the group-by. *)
Definition prepareGroupBy (t : TableName) (groupBy : GroupBy) : result Sql :=
  colDef <- getColumnDefinition t (g_column groupBy) ;;
  let internalColumn := getInternalSql colDef in
  if isDatetime (g_type groupBy)
  then Ok (raw dateSeries)
  else Ok internalColumn.

(** One compiled filter of [prepareFilterString]. *)
Definition prepareFilter (t : TableName)
  (columnDefinitions : list ColumnDefinition) (filter : Filter)
  : result Sql :=
  match findColumn columnDefinitions (f_column filter) with
  | None => Err (ColumnNotFound (f_column filter))
  | Some column =>
      if isDatetime (f_type filter)
      then Ok (getInternalSql column ++ raw " " ++ raw (f_operator filter)
               ++ raw " " ++ val (f_value filter))
      else Ok (getInternalSql column ++ raw " " ++ raw (f_operator filter)
               ++ raw " " ++ val (f_value filter) ++ raw " "
               ++ (if String.eqb (name column) "type"
                      && match t with observations => true | _ => false end
                   then raw ("::" ^^ dquote ^^ "ObservationType" ^^ dquote)
                   else empty))
  end.

(** const prepareFilterString = (table, filter, columnDefinitions) => ...
    return Prisma.join(filters, " AND ") *)
Definition prepareFilterString (t : TableName) (filter : list Filter)
  (columnDefinitions : list ColumnDefinition) : result Sql :=
  filters <- mapM (prepareFilter t columnDefinitions) filter ;;
  join filters " AND ".

(** const createAggregatedColumn = (from, column, agg) => ... *)
Definition createAggregatedColumn (from : TableName) (column : string)
  (agg : option string) : result Sql :=
  match truthyAgg agg with
  | Some a =>
      colDef <- getColumnDefinition from column ;;
      Ok (raw a ++ raw "(" ++ getInternalSql colDef ++ raw ")")
  | None =>
      colDef <- getColumnDefinition from column ;;
      Ok (getInternalSql colDef)
  end.

(** One term of the ORDER BY list. *)
Definition prepareOrderBy (from : TableName) (orderBy : OrderBy)
  : result Sql :=
  col <- createAggregatedColumn from (o_column orderBy) (o_agg orderBy) ;;
  Ok (col ++ raw " " ++ raw (o_direction orderBy)).

(** const prepareOrderByString = (from, orderBy, hasCte) => ... *)
Definition prepareOrderByString (from : TableName)
  (orderBy : option (list OrderBy)) (hasCte : bool) : result Sql :=
  orderBys <- mapM (prepareOrderBy from) (orEmpty orderBy) ;;
  let addedCte :=
    if hasCte then raw (dateSeries ^^ " ASC") :: orderBys else orderBys in
  match addedCte with
  | [] => Ok empty
  | _ :: _ => j <- join addedCte ", " ;; Ok (raw " ORDER BY " ++ j)
  end.

(** One entry of [selectFields]: the column with its alias. *)
Definition selectField (from : TableName) (field : SelectField)
  : result Sql :=
  safeColumn <- getColumnDefinition from (s_column field) ;;
  match truthyAgg (s_agg field) with
  | Some agg =>
      Ok (raw agg ++ raw "(" ++ getInternalSql safeColumn
          ++ raw (") as " ^^ dquote) ++ raw (toLowerCase agg)
          ++ raw (capitalizeFirstLetter (name safeColumn)) ++ raw dquote)
  | None =>
      Ok (getInternalSql safeColumn ++ raw (" as " ^^ dquote)
          ++ raw (name safeColumn) ++ raw dquote)
  end.

(** The series column that a plan puts in front of the SELECT list. *)
Definition seriesField (plan : BucketPlan) : Sql :=
  raw (dateSeries ^^ " as " ^^ dquote) ++ raw (name (p_column plan))
  ++ raw dquote.

Definition isSome {A} (o : option A) : bool :=
  match o with
  | Some _ => true
  | None => false
  end.

(** The GROUP BY clause of [createQuery]. *)
Definition groupString (from : TableName) (groupBy : option (list GroupBy))
  (hasCte : bool) : result Sql :=
  if (0 <? List.length (orEmpty groupBy)) || hasCte
  then
    groupByFields <- mapM (prepareGroupBy from) (orEmpty groupBy) ;;
    match groupByFields with
    | [] => Ok empty
    | _ :: _ => j <- join groupByFields ", " ;; Ok (raw " GROUP BY " ++ j)
    end
  else Ok empty.

(** The SELECT clause of [createQuery]. *)
Definition selectString (selectFields : list Sql) : result Sql :=
  match selectFields with
  | [] => Ok empty
  | _ :: _ => j <- join selectFields ", " ;; Ok (raw " SELECT " ++ j)
  end.

(** The filter clause of [createQuery]: introduced by AND after the join
    of a plan, by WHERE otherwise. *)
Definition filterString (from : TableName) (filter : option (list Filter))
  (hasCte : bool) : result Sql :=
  match filter with
  | Some ((_ :: _) as fs) =>
      p <- prepareFilterString from fs (columns (tableDefinitions from)) ;;
      Ok (raw " " ++ (if hasCte then raw " AND " else raw " WHERE ")
          ++ raw " " ++ p)
  | _ => Ok empty
  end.

(** const limitString = query.limit ? Prisma.sql` LIMIT ${query.limit}`
                                    : Prisma.empty *)
Definition limitString (limit : option number) : Sql :=
  match limit with
  | Some n => if truthyNumber n then raw " LIMIT " ++ val (VNumber n)
              else empty
  | None => empty
  end.

(** export const createQuery = (queryUnsafe) => ...
    The query is the validated one ([sqlInterface.parse] has accepted it);
    the steps run in the order of the source, so the first exception is
    the one the caller sees.  What is written to the console before a
    throw is not modelled. *)
Definition createQuery (query : Query) : result Sql :=
  cte <- createDateRangeCte (q_from query) (orEmpty (q_filter query))
           (orEmpty (q_groupBy query)) ;;
  let fromString :=
    match cte with
    | Some plan => p_from plan
    | None => raw " FROM " ++ getTableSql (q_from query)
    end in
  fields <- mapM (selectField (q_from query)) (q_select query) ;;
  let selectFields :=
    match cte with
    | Some plan => seriesField plan :: fields
    | None => fields
    end in
  groupS <- groupString (q_from query) (q_groupBy query) (isSome cte) ;;
  selectS <- selectString selectFields ;;
  orderByS <- prepareOrderByString (q_from query) (q_orderBy query)
                (isSome cte) ;;
  filterS <- filterString (q_from query) (q_filter query) (isSome cte) ;;
  let limitS := limitString (q_limit query) in
  Ok ((match cte with Some plan => p_cte plan | None => empty end)
      ++ selectS ++ fromString ++ filterS ++ groupS ++ orderByS ++ limitS
      ++ raw ";").

(** export const enrichAndCreateQuery = (projectId, queryUnsafe) => ... *)
Definition enrichAndCreateQuery (projectId : string) (query : Query)
  : result Sql :=
  createQuery
    {| q_from := q_from query;
       q_select := q_select query;
       q_filter := Some (orEmpty (q_filter query)
                         ++ getMandatoryFilter (q_from query) projectId);
       q_groupBy := q_groupBy query;
       q_orderBy := q_orderBy query;
       q_limit := q_limit query |}.

End Compiler.

(* ================================================================== *)
(** ** The result normalizer *)

(** A decimal.js value: NaN, an infinity, or a signed coefficient times a
    power of ten. *)
Inductive Decimal :=
| DecNaN
| DecInfinity (negative : bool)
| DecFinite (negative : bool) (coefficient : N) (exponent : Z).

(** [Decimal.prototype.toNumber]: the binary64 number nearest to the
    decimal (round to nearest, ties to even). *)
Definition decimalToNumber (d : Decimal) : number :=
  match d with
  | DecNaN => S754_nan
  | DecInfinity s => S754_infinity s
  | DecFinite s N0 _ => S754_zero s
  | DecFinite s (Npos c) e =>
      match e with
      | Z0 => binary_round prec64 emax64 s c 0
      | Zpos p => binary_round prec64 emax64 s (c * Pos.pow 10 p) 0
      | Zneg p =>
          SFdiv prec64 emax64 (S754_finite s c 0)
            (S754_finite false (Pos.pow 10 p) 0)
      end
  end.

(** The values a cell of a driver row can hold at run time.  [JObject]
    stands for every other object (arrays, buffers, JSON values). *)
Inductive JsValue :=
| JBigInt (z : Z)
| JNumber (n : number)
| JDecimal (d : Decimal)
| JString (s : string)
| JDate (ms : Z)
| JNull
| JUndefined
| JBoolean (b : bool)
| JObject.

(** typeof val *)
Definition typeof (val : JsValue) : string :=
  match val with
  | JBigInt _ => "bigint"
  | JNumber _ => "number"
  | JString _ => "string"
  | JUndefined => "undefined"
  | JBoolean _ => "boolean"
  | JDecimal _ | JDate _ | JNull | JObject => "object"
  end.

(** The chain of type tests in the loop body of [outputParser]. *)
Definition parseCell (val : JsValue) : result JsValue :=
  match val with
  | JBigInt z => Ok (JNumber (numberOfZ z))
  | JNumber n => Ok (JNumber n)
  | JDecimal d => Ok (JNumber (decimalToNumber d))
  | JString s => Ok (JString s)
  | JDate ms => Ok (JDate ms)
  | JNull => Ok JNull
  | JUndefined | JBoolean _ | JObject => Err (UnknownType (typeof val))
  end.

(** A row: its keys with their cells, in enumeration order. *)
Definition Row : Type := list (string * JsValue).

Definition parseRow (row : Row) : result Row :=
  mapM (fun kv => v <- parseCell (snd kv) ;; Ok (fst kv, v)) row.

(** const outputParser = (output) => output.map((row) => ...) *)
Definition outputParser (output : list Row) : result (list Row) :=
  mapM parseRow output.

(** The cells of a [DatabaseRow]: number, string, Date or null. *)
Definition portable (v : JsValue) : bool :=
  match v with
  | JNumber _ | JString _ | JDate _ | JNull => true
  | _ => false
  end.

(* ================================================================== *)
(** ** A registry to run the compiler on *)

(** A small registry in the shape of [tableDefinitions], used to evaluate
    the compiler on concrete queries. *)
Definition col (n : string) (t : ValueType) (i : string) : ColumnDefinition :=
  {| name := n; ctype := t; internal := i |}.

Definition traceColumns : list ColumnDefinition :=
  [ col "id" TString "t.id";
    col "name" TString "t.name";
    col "timestamp" TDatetime "t.timestamp";
    col "tracesProjectId" TString "t.project_id" ].

Definition observationColumns : list ColumnDefinition :=
  [ col "observationId" TString "o.id";
    col "type" TString "o.type";
    col "startTime" TDatetime "o.start_time";
    col "amount" TNumber "o.amount";
    col "observationsProjectId" TString "o.project_id" ].

Definition scoreColumns : list ColumnDefinition :=
  [ col "scoreName" TString "s.name";
    col "value" TNumber "s.value" ].

Definition sampleDefinitions (t : TableName) : TableDefinition :=
  match t with
  | traces =>
      {| table := "traces t"; columns := traceColumns |}
  | traces_observations =>
      {| table := "traces t LEFT JOIN observations o ON t.id = o.trace_id";
         columns := traceColumns ++ observationColumns |}
  | observations =>
      {| table := "observations o"; columns := observationColumns |}
  | traces_scores =>
      {| table := "traces t JOIN scores s ON t.id = s.trace_id";
         columns := traceColumns ++ scoreColumns |}
  | traces_parent_observation_scores =>
      {| table := "traces t LEFT JOIN observations o ON t.id = o.trace_id LEFT JOIN scores s ON t.id = s.trace_id";
         columns := traceColumns ++ observationColumns ++ scoreColumns |}
  end.

(** Queries to run on it. *)
Definition plainQuery (t : TableName) (c : string) : Query :=
  {| q_from := t;
     q_select := [{| s_column := c; s_agg := None |}];
     q_filter := None;
     q_groupBy := None;
     q_orderBy := None;
     q_limit := None |}.

Definition dateFilter (c op : string) (ms : Z) : Filter :=
  {| f_type := TDatetime; f_column := c; f_operator := op;
     f_value := VDate ms |}.

Definition byDay (c : string) : GroupBy :=
  {| g_type := TDatetime; g_column := c; g_temporalUnit := Some "day" |}.

Definition byColumn (c : string) : GroupBy :=
  {| g_type := TString; g_column := c; g_temporalUnit := None |}.

(** Traces per day and name between two instants. *)
Definition bucketQuery : Query :=
  {| q_from := traces;
     q_select := [{| s_column := "id"; s_agg := Some "COUNT" |}];
     q_filter := Some [dateFilter "timestamp" ">=" 100;
                       dateFilter "timestamp" "<" 200];
     q_groupBy := Some [byDay "timestamp"; byColumn "name"];
     q_orderBy := Some [{| o_column := "id"; o_agg := Some "COUNT";
                           o_direction := "DESC" |}];
     q_limit := None |}.

(** A datetime group-by with no range filter at all. *)
Definition unboundedQuery : Query :=
  {| q_from := traces;
     q_select := [{| s_column := "id"; s_agg := Some "COUNT" |}];
     q_filter := None;
     q_groupBy := Some [byDay "timestamp"];
     q_orderBy := None;
     q_limit := None |}.

(** A datetime group-by with a single datetime filter. *)
Definition oneBoundQuery : Query :=
  {| q_from := traces;
     q_select := [{| s_column := "id"; s_agg := Some "COUNT" |}];
     q_filter := Some [dateFilter "timestamp" ">=" 100];
     q_groupBy := Some [byDay "timestamp"];
     q_orderBy := None;
     q_limit := None |}.

(** Two datetime group-bys. *)
Definition twoDatetimeQuery : Query :=
  {| q_from := traces_observations;
     q_select := [{| s_column := "id"; s_agg := Some "COUNT" |}];
     q_filter := None;
     q_groupBy := Some [byDay "timestamp"; byDay "startTime"];
     q_orderBy := None;
     q_limit := None |}.

(** A range on a column other than the one grouped by. *)
Definition mismatchedQuery : Query :=
  {| q_from := traces_observations;
     q_select := [{| s_column := "id"; s_agg := Some "COUNT" |}];
     q_filter := Some [dateFilter "startTime" ">=" 100;
                       dateFilter "startTime" "<" 200];
     q_groupBy := Some [byDay "timestamp"];
     q_orderBy := None;
     q_limit := None |}.

(** The plan of [bucketQuery]. *)
Definition bucketPlan : BucketPlan :=
  {| p_cte := cteString (VDate 100) (VDate 200) "day";
     p_from := modifiedFrom sampleDefinitions traces "day"
                 (col "timestamp" TDatetime "t.timestamp");
     p_column := col "timestamp" TDatetime "t.timestamp" |}.

(** [bucketQuery] with other instants. *)
Definition laterBucketQuery : Query :=
  {| q_from := traces;
     q_select := [{| s_column := "id"; s_agg := Some "COUNT" |}];
     q_filter := Some [dateFilter "timestamp" ">=" 3000;
                       dateFilter "timestamp" "<" 4000];
     q_groupBy := Some [byDay "timestamp"; byColumn "name"];
     q_orderBy := Some [{| o_column := "id"; o_agg := Some "COUNT";
                           o_direction := "DESC" |}];
     q_limit := None |}.

(** The statement of a compilation that succeeded. *)
Definition compiled (r : result Sql) : Sql :=
  match r with
  | Ok s => s
  | Err _ => []
  end.

(* ================================================================== *)
(** ** Running a query *)

(** How [executeQuery] can end other than with rows: the compiler threw,
    the promise of [prisma.$queryRaw] was rejected, or the normalizer
    threw. *)
Inductive ExecError :=
| CompileFailed (e : Error)
| QueryFailed (message : string)
| ParseFailed (e : Error).

(** export const executeQuery = async (prisma, projectId, unsafeQuery) => ...
    The client is the function [queryRaw] from the statement it is given
    to the rows it answers with (or the message of its rejection).  The
    result pairs the statements handed to the client, in order, with the
    value the promise settles to. *)
Definition executeQuery (tableDefinitions : TableName -> TableDefinition)
  (queryRaw : Sql -> string + list Row) (projectId : string)
  (query : Query) : list Sql * (ExecError + list Row) :=
  match enrichAndCreateQuery tableDefinitions projectId query with
  | Err e => ([], inl (CompileFailed e))
  | Ok sql =>
      match queryRaw sql with
      | inl message => ([sql], inl (QueryFailed message))
      | inr response =>
          match outputParser response with
          | Ok parsedResult => ([sql], inr parsedResult)
          | Err e => ([sql], inl (ParseFailed e))
          end
      end
  end.

(** A registry whose traces table lacks the tenant column. *)
Definition brokenDefinitions (t : TableName) : TableDefinition :=
  match t with
  | traces =>
      {| table := "traces t";
         columns := [col "id" TString "t.id"; col "name" TString "t.name"] |}
  | _ => sampleDefinitions t
  end.

(** A client that answers every statement with the same two rows. *)
Definition sampleClient (sql : Sql) : string + list Row :=
  inr [[("countId", JBigInt 3); ("name", JString "a")];
       [("countId", JBigInt 5); ("name", JNull)]].

(** A select list whose second column the registry lacks. *)
Definition unknownColumnQuery : Query :=
  {| q_from := traces;
     q_select := [{| s_column := "id"; s_agg := None |};
                  {| s_column := "nope"; s_agg := None |};
                  {| s_column := "name"; s_agg := None |}];
     q_filter := None;
     q_groupBy := None;
     q_orderBy := None;
     q_limit := None |}.

(** The rows [sampleClient] answers with, normalised. *)
Definition sampleRows : list Row :=
  [[("countId", JNumber (numberOfZ 3)); ("name", JString "a")];
   [("countId", JNumber (numberOfZ 5)); ("name", JNull)]].

(** Filters on the type of an observation and on its amount. *)
Definition typeFilter : Filter :=
  {| f_type := TString; f_column := "type"; f_operator := "=";
     f_value := VString "GENERATION" |}.

Definition amountFilter : Filter :=
  {| f_type := TNumber; f_column := "amount"; f_operator := ">";
     f_value := VNumber (numberOfZ 10) |}.

(* ================================================================== *)
(** ** Notions used to state the properties *)

(** The text pieces of a statement, with each bound value reduced to the
    fact that a value is bound there. *)
Definition fragShape (f : Frag) : option string :=
  match f with
  | Raw s => Some s
  | Bind _ => None
  end.

Definition shapeOf (q : Sql) : list (option string) := map fragShape q.

(** A filter with its literal value blanked. *)
Definition eraseValue (f : Filter) : Filter :=
  {| f_type := f_type f;
     f_column := f_column f;
     f_operator := f_operator f;
     f_value := VString EmptyString |}.

(** A query with every literal value blanked: filter values and limit. *)
Definition eraseLiterals (q : Query) : Query :=
  {| q_from := q_from q;
     q_select := q_select q;
     q_filter := option_map (map eraseValue) (q_filter q);
     q_groupBy := q_groupBy q;
     q_orderBy := q_orderBy q;
     q_limit := option_map (fun _ => S754_zero false) (q_limit q) |}.

(** Whether the query carries a limit that the compiler acts on. *)
Definition hasLimit (q : Query) : bool :=
  match q_limit q with
  | Some n => truthyNumber n
  | None => false
  end.

Definition withLimit (q : Query) (limit : option number) : Query :=
  {| q_from := q_from q;
     q_select := q_select q;
     q_filter := q_filter q;
     q_groupBy := q_groupBy q;
     q_orderBy := q_orderBy q;
     q_limit := limit |}.

Definition withFilter (q : Query) (filter : option (list Filter)) : Query :=
  {| q_from := q_from q;
     q_select := q_select q;
     q_filter := filter;
     q_groupBy := q_groupBy q;
     q_orderBy := q_orderBy q;
     q_limit := q_limit q |}.

(** The cells the normalizer knows how to convert. *)
Definition recognised (v : JsValue) : bool :=
  match v with
  | JBigInt _ | JNumber _ | JDecimal _ | JString _ | JDate _ | JNull => true
  | JUndefined | JBoolean _ | JObject => false
  end.

(** The conversion of a recognised cell, by type. *)
Definition converted (v w : JsValue) : Prop :=
  match v with
  | JBigInt z => w = JNumber (numberOfZ z)
  | JDecimal d => w = JNumber (decimalToNumber d)
  | JNumber _ | JString _ | JDate _ | JNull => w = v
  | JUndefined | JBoolean _ | JObject => False
  end.

(** The values a plan binds are the values of the two range filters. *)
Definition rangeBounds (cte : option BucketPlan) : list Value :=
  match cte with
  | Some plan => sqlValues (p_cte plan)
  | None => []
  end.

(** What the rest of the compilation reads of a plan, the values of the
    bounds apart. *)
Definition planShape (p : BucketPlan)
  : list (option string) * Sql * ColumnDefinition :=
  (shapeOf (p_cte p), p_from p, p_column p).

(** The text of the tenant predicates: each is [internal = $i ] and they
    are joined with [ AND ]. *)
Fixpoint tenantPredicate (n : nat) (tcds : list ColumnDefinition)
  : string :=
  match tcds with
  | [] => EmptyString
  | [cd] => internal cd ^^ " = " ^^ placeholder n ^^ " "
  | cd :: rest =>
      internal cd ^^ " = " ^^ placeholder n ^^ " " ^^ " AND "
      ^^ tenantPredicate (S n) rest
  end.

(** The relation between a cell of a driver row and the cell of the
    normalised row. *)
Definition normalisedCell (kv kv' : string * JsValue) : Prop :=
  fst kv' = fst kv /\ converted (snd kv) (snd kv') /\
  portable (snd kv') = true.

(** The column is in the registry entry of the table. *)
Definition resolves (defs : TableName -> TableDefinition) (t : TableName)
  (c : string) : Prop :=
  exists cd, findColumn (columns (defs t)) c = Some cd.

(** The exceptions of the compiler about a column the registry lacks. *)
Definition missingColumn (defs : TableName -> TableDefinition)
  (t : TableName) (e : Error) : Prop :=
  exists c,
    findColumn (columns (defs t)) c = None /\
    (e = ColumnNotFoundInTable c (tableNameString t) \/
     e = ColumnNotFound c).

(** The alias [createQuery] gives a selected column. *)
Definition aliasOf (column : string) (agg : option string) : string :=
  match truthyAgg agg with
  | Some a => toLowerCase a ^^ capitalizeFirstLetter column
  | None => column
  end.

Definition Value_eq_dec (a b : Value) : {a = b} + {a <> b}.
Proof.
  decide equality.
  - apply string_dec.
  - decide equality; try apply Z.eq_dec; try apply Pos.eq_dec;
      apply Bool.bool_dec.
  - apply Z.eq_dec.
Defined.

(* ================================================================== *)
(** ** Strings and statements: basic facts *)

Lemma append_assoc (a b c : string) : (a ^^ b) ^^ c = a ^^ (b ^^ c).
Proof.
  induction a as [|x a IH]; simpl; [reflexivity | now rewrite IH].
Qed.

Lemma append_empty_r (a : string) : a ^^ EmptyString = a.
Proof.
  induction a as [|x a IH]; simpl; [reflexivity | now rewrite IH].
Qed.

Lemma sqlValues_app (a b : Sql) :
  sqlValues (a ++ b) = sqlValues a ++ sqlValues b.
Proof.
  induction a as [|[s|v] a IH]; simpl; auto. now rewrite IH.
Qed.

Lemma render_shape (a b : Sql) :
  shapeOf a = shapeOf b -> forall n, render n a = render n b.
Proof.
  revert b. induction a as [|[s|v] a IH]; intros [|[s'|v'] b] H n;
    simpl in *; try discriminate; auto.
  - injection H as -> H. now rewrite (IH b H).
  - injection H as H. now rewrite (IH b H).
Qed.

Lemma shapeOf_app (a b : Sql) : shapeOf (a ++ b) = shapeOf a ++ shapeOf b.
Proof. apply map_app. Qed.

(* ------------------------------------------------------------------ *)
(** *** The result monad *)

Lemma bind_Ok {A B} (r : result A) (k : A -> result B) (b : B) :
  bind r k = Ok b -> exists a, r = Ok a /\ k a = Ok b.
Proof.
  destruct r as [a|e]; simpl; intros H; [eauto | discriminate].
Qed.

Ltac inv_bind H :=
  let a := fresh "x" in
  let Ha := fresh "E" in
  apply bind_Ok in H; destruct H as (a & Ha & H); cbv beta in H.

Lemma mapM_Ok_Forall2 {A B} (f : A -> result B) (xs : list A) :
  forall ys, mapM f xs = Ok ys -> Forall2 (fun x y => f x = Ok y) xs ys.
Proof.
  induction xs as [|x xs IH]; simpl; intros ys H.
  - injection H as <-. constructor.
  - inv_bind H. inv_bind H. injection H as <-.
    constructor; auto.
Qed.


(** The values bound by a joined list are those of its elements, in
    order. *)
Lemma join_values (xs : list Sql) (sep : string) (j : Sql) :
  join xs sep = Ok j -> sqlValues j = flat_map sqlValues xs.
Proof.
  destruct xs as [|x r]; simpl; intros H; [discriminate|].
  injection H as <-. rewrite sqlValues_app. f_equal.
  induction r as [|y r IH]; simpl; auto.
  now rewrite sqlValues_app, IH.
Qed.

(* ================================================================== *)
(** ** Facts about the compiler, for any registry *)

Section CompilerFacts.

Variable defs : TableName -> TableDefinition.

Lemma findColumn_name (cols : list ColumnDefinition) (c : string)
  (cd : ColumnDefinition) :
  findColumn cols c = Some cd -> name cd = c.
Proof.
  unfold findColumn. intros H. apply find_some in H.
  now apply String.eqb_eq.
Qed.

Lemma getColumnDefinition_Ok (t : TableName) (c : string)
  (cd : ColumnDefinition) :
  getColumnDefinition defs t c = Ok cd <->
  findColumn (columns (defs t)) c = Some cd.
Proof.
  unfold getColumnDefinition.
  destruct (findColumn (columns (defs t)) c); split; intros H;
    try discriminate; congruence.
Qed.

Lemma getColumnDefinition_name (t : TableName) (c : string)
  (cd : ColumnDefinition) :
  getColumnDefinition defs t c = Ok cd -> name cd = c.
Proof.
  intros H. apply getColumnDefinition_Ok in H.
  eapply findColumn_name; eauto.
Qed.

(* ------------------------------------------------------------------ *)
(** *** Which pieces bind values *)

Lemma selectField_values (t : TableName) (f : SelectField) (s : Sql) :
  selectField defs t f = Ok s -> sqlValues s = [].
Proof.
  unfold selectField. intros H. inv_bind H.
  destruct (truthyAgg (s_agg f)); injection H as <-; reflexivity.
Qed.

Lemma prepareGroupBy_values (t : TableName) (g : GroupBy) (s : Sql) :
  prepareGroupBy defs t g = Ok s -> sqlValues s = [].
Proof.
  unfold prepareGroupBy. intros H. inv_bind H.
  destruct (isDatetime (g_type g)); injection H as <-; reflexivity.
Qed.

Lemma prepareOrderBy_values (t : TableName) (o : OrderBy) (s : Sql) :
  prepareOrderBy defs t o = Ok s -> sqlValues s = [].
Proof.
  unfold prepareOrderBy, createAggregatedColumn. intros H. inv_bind H.
  injection H as <-.
  destruct (truthyAgg (o_agg o)); inv_bind E; injection E as <-;
    reflexivity.
Qed.

Lemma mapM_plain {A} (f : A -> result Sql) (xs : list A) (ys : list Sql) :
  (forall x y, f x = Ok y -> sqlValues y = []) ->
  mapM f xs = Ok ys -> flat_map sqlValues ys = [].
Proof.
  intros Hf H. apply mapM_Ok_Forall2 in H.
  induction H as [|x y xs ys Hxy _ IH]; simpl; auto.
  now rewrite (Hf _ _ Hxy), IH.
Qed.

Lemma prepareFilter_values (t : TableName) (cols : list ColumnDefinition)
  (f : Filter) (s : Sql) :
  prepareFilter t cols f = Ok s -> sqlValues s = [f_value f].
Proof.
  unfold prepareFilter. destruct (findColumn cols (f_column f)) as [cd|];
    [|discriminate].
  destruct (isDatetime (f_type f)); intros H; injection H as <-;
    [reflexivity|].
  simpl. destruct (_ && _); reflexivity.
Qed.

Lemma prepareFilterString_values (t : TableName) (fs : list Filter)
  (cols : list ColumnDefinition) (p : Sql) :
  prepareFilterString t fs cols = Ok p -> sqlValues p = map f_value fs.
Proof.
  unfold prepareFilterString. intros H. inv_bind H.
  rewrite (join_values _ _ H). clear H.
  apply mapM_Ok_Forall2 in E.
  induction E as [|f y fs ys Hfy _ IH]; simpl; auto.
  now rewrite (prepareFilter_values _ _ _ Hfy), IH.
Qed.

Lemma filterString_values (t : TableName) (filter : option (list Filter))
  (hasCte : bool) (s : Sql) :
  filterString defs t filter hasCte = Ok s ->
  sqlValues s = map f_value (orEmpty filter).
Proof.
  unfold filterString. destruct filter as [[|f fs]|]; simpl;
    try (intros H; injection H as <-; reflexivity).
  intros H. inv_bind H. injection H as <-.
  apply prepareFilterString_values in E.
  destruct hasCte; simpl; exact E.
Qed.

Lemma groupString_values (t : TableName) (groupBy : option (list GroupBy))
  (hasCte : bool) (s : Sql) :
  groupString defs t groupBy hasCte = Ok s -> sqlValues s = [].
Proof.
  unfold groupString. destruct (_ || _); [|intros H; now injection H as <-].
  intros H. inv_bind H.
  pose proof (mapM_plain _ _ (prepareGroupBy_values t) E) as Hp.
  destruct x as [|y ys]; [now injection H as <-|].
  inv_bind H. injection H as <-.
  simpl. rewrite (join_values _ _ E0). exact Hp.
Qed.

Lemma selectString_values (fields : list Sql) (s : Sql) :
  flat_map sqlValues fields = [] ->
  selectString fields = Ok s -> sqlValues s = [].
Proof.
  unfold selectString. intros Hp H.
  destruct fields as [|y ys]; [now injection H as <-|].
  inv_bind H. injection H as <-.
  simpl. now rewrite (join_values _ _ E).
Qed.

Lemma prepareOrderByString_values (t : TableName)
  (orderBy : option (list OrderBy)) (hasCte : bool) (s : Sql) :
  prepareOrderByString defs t orderBy hasCte = Ok s -> sqlValues s = [].
Proof.
  unfold prepareOrderByString. intros H. inv_bind H.
  pose proof (mapM_plain _ _ (prepareOrderBy_values t) E) as Hp.
  destruct hasCte.
  - inv_bind H. injection H as <-. simpl.
    rewrite (join_values _ _ E0). simpl. exact Hp.
  - destruct x as [|y ys]; [now injection H as <-|].
    inv_bind H. injection H as <-. simpl.
    rewrite (join_values _ _ E0). exact Hp.
Qed.

(* ------------------------------------------------------------------ *)
(** *** The planner *)

(** A plan is produced exactly from one datetime group-by with a unit and
    the two range filters found, on its column. *)
Lemma createDateRangeCte_Some (from : TableName) (filters : list Filter)
  (groupBy : list GroupBy) (plan : BucketPlan) :
  createDateRangeCte defs from filters groupBy = Ok (Some plan) ->
  exists g u lo hi cd,
    List.filter (fun x => isDatetime (g_type x)) groupBy = [g] /\
    g_temporalUnit g = Some u /\
    minDateColumn filters = Some lo /\
    maxDateColumn filters = Some hi /\
    f_column lo = g_column g /\
    f_column hi = g_column g /\
    getColumnDefinition defs from (g_column g) = Ok cd /\
    plan = {| p_cte := cteString (f_value lo) (f_value hi) u;
              p_from := modifiedFrom defs from u cd;
              p_column := cd |}.
Proof.
  unfold createDateRangeCte.
  destruct (List.filter _ groupBy) as [|g [|g' gs]] eqn:Eg;
    try discriminate.
  destruct (g_temporalUnit g) as [u|] eqn:Eu; [|discriminate].
  destruct (minDateColumn filters) as [lo|] eqn:Emin; [|discriminate].
  destruct (maxDateColumn filters) as [hi|] eqn:Emax; [|discriminate].
  destruct (String.eqb (f_column lo) (g_column g)) eqn:Elo;
    [|discriminate].
  destruct (String.eqb (f_column hi) (g_column g)) eqn:Ehi;
    [|discriminate].
  simpl. intros H. inv_bind H. injection H as <-.
  apply String.eqb_eq in Elo, Ehi.
  exists g, u, lo, hi, x. rewrite <- Elo. repeat split; auto.
  congruence.
Qed.

Lemma find_filter_In {A} (p q : A -> bool) (l : list A) (x : A) :
  find p (List.filter q l) = Some x -> In x l /\ p x = true /\ q x = true.
Proof.
  intros H. apply find_some in H. destruct H as [Hin Hp].
  apply filter_In in Hin. tauto.
Qed.

Lemma minDateColumn_In (filters : list Filter) (lo : Filter) :
  minDateColumn filters = Some lo ->
  In lo filters /\ isLowerBound lo = true /\ isTimeRangeFilter lo = true.
Proof.
  unfold minDateColumn. destruct (1 <? _); [|discriminate].
  apply find_filter_In.
Qed.

Lemma maxDateColumn_In (filters : list Filter) (hi : Filter) :
  maxDateColumn filters = Some hi ->
  In hi filters /\ isUpperBound hi = true /\ isTimeRangeFilter hi = true.
Proof.
  unfold maxDateColumn. destruct (1 <? _); [|discriminate].
  apply find_filter_In.
Qed.

(* ------------------------------------------------------------------ *)
(** *** The shape of a compiled statement *)

Lemma createQuery_inv (q : Query) (sql : Sql) :
  createQuery defs q = Ok sql ->
  exists cte fields groupS selectS orderByS filterS,
    createDateRangeCte defs (q_from q) (orEmpty (q_filter q))
      (orEmpty (q_groupBy q)) = Ok cte /\
    mapM (selectField defs (q_from q)) (q_select q) = Ok fields /\
    groupString defs (q_from q) (q_groupBy q) (isSome cte) = Ok groupS /\
    selectString (match cte with
                  | Some plan => seriesField plan :: fields
                  | None => fields
                  end) = Ok selectS /\
    prepareOrderByString defs (q_from q) (q_orderBy q) (isSome cte)
      = Ok orderByS /\
    filterString defs (q_from q) (q_filter q) (isSome cte) = Ok filterS /\
    sql = (match cte with Some plan => p_cte plan | None => empty end)
          ++ selectS
          ++ (match cte with
              | Some plan => p_from plan
              | None => raw " FROM " ++ getTableSql defs (q_from q)
              end)
          ++ filterS ++ groupS ++ orderByS ++ limitString (q_limit q)
          ++ raw ";".
Proof.
  unfold createQuery. intros H.
  inv_bind H. inv_bind H. inv_bind H. inv_bind H. inv_bind H. inv_bind H.
  injection H as <-.
  exists x, x0, x1, x2, x3, x4. repeat split; assumption.
Qed.

(** The bound parameters of a compiled statement: the two bounds of the
    series when there is a plan, then the value of every filter in order,
    then the limit when it is acted on. *)
Lemma createQuery_values (q : Query) (sql : Sql) :
  createQuery defs q = Ok sql ->
  exists cte,
    createDateRangeCte defs (q_from q) (orEmpty (q_filter q))
      (orEmpty (q_groupBy q)) = Ok cte /\
    sqlValues sql =
      sqlValues (match cte with Some plan => p_cte plan | None => empty end)
      ++ map f_value (orEmpty (q_filter q))
      ++ sqlValues (limitString (q_limit q)).
Proof.
  intros H. apply createQuery_inv in H.
  destruct H as (cte & fields & groupS & selectS & orderByS & filterS
                 & Hcte & Hf & Hg & Hs & Ho & Hfl & ->).
  exists cte. split; [exact Hcte|].
  pose proof (mapM_plain _ _ (selectField_values (q_from q)) Hf) as Hp.
  rewrite !sqlValues_app.
  rewrite (groupString_values _ _ _ Hg).
  rewrite (prepareOrderByString_values _ _ _ Ho).
  rewrite (filterString_values _ _ _ Hfl).
  assert (Hsel : sqlValues selectS = []).
  { refine (selectString_values _ _ Hs).
    destruct cte; simpl; auto. }
  rewrite Hsel. clear Hs Hg Ho Hfl Hsel.
  destruct cte as [plan|]; simpl; [|now rewrite app_nil_r].
  apply createDateRangeCte_Some in Hcte.
  destruct Hcte as (g & u & lo & hi & cd & _ & _ & _ & _ & _ & _ & _ & ->).
  simpl. now rewrite app_nil_r.
Qed.

Lemma enrich_unfold (projectId : string) (q : Query) :
  enrichAndCreateQuery defs projectId q =
  createQuery defs
    (withFilter q (Some (orEmpty (q_filter q)
                         ++ getMandatoryFilter (q_from q) projectId))).
Proof. reflexivity. Qed.

Lemma getMandatoryFilter_values (t : TableName) (projectId : string) :
  map f_value (getMandatoryFilter t projectId) =
  map (fun _ => VString projectId) (getMandatoryFilter t projectId).
Proof. destruct t; reflexivity. Qed.

(* ------------------------------------------------------------------ *)
(** *** Tenant filters *)


(* ------------------------------------------------------------------ *)
(** *** The text does not depend on literal values *)

Lemma prepareFilter_erase (t : TableName) (cols : list ColumnDefinition)
  (f : Filter) :
  resultMap shapeOf (prepareFilter t cols (eraseValue f))
  = resultMap shapeOf (prepareFilter t cols f).
Proof.
  unfold prepareFilter. simpl.
  destruct (findColumn cols (f_column f)) as [cd|]; [|reflexivity].
  destruct (isDatetime (f_type f)); [reflexivity|].
  simpl. destruct (_ && _); reflexivity.
Qed.

Lemma mapM_prepareFilter_erase (t : TableName)
  (cols : list ColumnDefinition) (fs : list Filter) :
  resultMap (map shapeOf)
    (mapM (prepareFilter t cols) (map eraseValue fs))
  = resultMap (map shapeOf) (mapM (prepareFilter t cols) fs).
Proof.
  induction fs as [|f fs IH]; simpl; [reflexivity|].
  pose proof (prepareFilter_erase t cols f) as Hf.
  destruct (prepareFilter t cols (eraseValue f)) as [a|e];
    destruct (prepareFilter t cols f) as [b|e']; simpl in *;
    try discriminate; try congruence.
  injection Hf as Hf.
  destruct (mapM (prepareFilter t cols) (map eraseValue fs)) as [l|e];
    destruct (mapM (prepareFilter t cols) fs) as [l'|e']; simpl in *;
    try discriminate; congruence.
Qed.

Lemma flat_map_sep_shape (sep : string) (xs ys : list Sql) :
  map shapeOf xs = map shapeOf ys ->
  shapeOf (flat_map (fun y => Raw sep :: y) xs)
  = shapeOf (flat_map (fun y => Raw sep :: y) ys).
Proof.
  revert ys. induction xs as [|x xs IH]; intros [|y ys] H;
    simpl in *; try discriminate; auto.
  injection H as Hx H. cbn [shapeOf map fragShape].
  fold (shapeOf (x ++ flat_map (fun y => Raw sep :: y) xs)).
  fold (shapeOf (y ++ flat_map (fun y => Raw sep :: y) ys)).
  now rewrite !shapeOf_app, Hx, (IH ys H).
Qed.

Lemma join_shape (sep : string) (xs ys : list Sql) :
  map shapeOf xs = map shapeOf ys ->
  resultMap shapeOf (join xs sep) = resultMap shapeOf (join ys sep).
Proof.
  destruct xs as [|x xs], ys as [|y ys]; simpl; intros H;
    try discriminate; auto.
  injection H as Hx H.
  now rewrite !shapeOf_app, Hx, (flat_map_sep_shape sep _ _ H).
Qed.

Lemma prepareFilterString_erase (t : TableName) (fs : list Filter)
  (cols : list ColumnDefinition) :
  resultMap shapeOf (prepareFilterString t (map eraseValue fs) cols)
  = resultMap shapeOf (prepareFilterString t fs cols).
Proof.
  unfold prepareFilterString.
  pose proof (mapM_prepareFilter_erase t cols fs) as H.
  destruct (mapM (prepareFilter t cols) (map eraseValue fs)) as [l|e];
    destruct (mapM (prepareFilter t cols) fs) as [l'|e']; simpl in *;
    try discriminate; try congruence.
  injection H as H. now apply join_shape.
Qed.

Lemma filterString_erase (t : TableName) (filter : option (list Filter))
  (hasCte : bool) :
  resultMap shapeOf
    (filterString defs t (option_map (map eraseValue) filter) hasCte)
  = resultMap shapeOf (filterString defs t filter hasCte).
Proof.
  unfold filterString. destruct filter as [[|f fs]|]; simpl; auto.
  pose proof (prepareFilterString_erase t (f :: fs) (columns (defs t)))
    as H. simpl in H.
  destruct (prepareFilterString t (eraseValue f :: map eraseValue fs) _)
    as [a|e];
    destruct (prepareFilterString t (f :: fs) _) as [b|e'];
    simpl in *; try discriminate; try congruence.
  injection H as H. destruct hasCte; simpl; now rewrite H.
Qed.

Lemma filter_map_erase (fs : list Filter) :
  List.filter isTimeRangeFilter (map eraseValue fs)
  = map eraseValue (List.filter isTimeRangeFilter fs).
Proof.
  induction fs as [|f fs IH]; simpl; auto.
  change (isTimeRangeFilter (eraseValue f)) with (isTimeRangeFilter f).
  destruct (isTimeRangeFilter f); simpl; now rewrite IH.
Qed.

Lemma find_map_erase (p : Filter -> bool) (fs : list Filter) :
  (forall f, p (eraseValue f) = p f) ->
  find p (map eraseValue fs) = option_map eraseValue (find p fs).
Proof.
  intros Hp. induction fs as [|f fs IH]; simpl; auto.
  rewrite Hp. destruct (p f); auto.
Qed.

Lemma minDateColumn_erase (fs : list Filter) :
  minDateColumn (map eraseValue fs)
  = option_map eraseValue (minDateColumn fs).
Proof.
  unfold minDateColumn. cbv zeta. rewrite filter_map_erase, length_map.
  destruct (1 <? _); [|reflexivity].
  now apply find_map_erase.
Qed.

Lemma maxDateColumn_erase (fs : list Filter) :
  maxDateColumn (map eraseValue fs)
  = option_map eraseValue (maxDateColumn fs).
Proof.
  unfold maxDateColumn. cbv zeta. rewrite filter_map_erase, length_map.
  destruct (1 <? _); [|reflexivity].
  now apply find_map_erase.
Qed.

Lemma createDateRangeCte_erase (from : TableName) (fs : list Filter)
  (groupBy : list GroupBy) :
  resultMap (option_map planShape)
    (createDateRangeCte defs from (map eraseValue fs) groupBy)
  = resultMap (option_map planShape)
      (createDateRangeCte defs from fs groupBy).
Proof.
  unfold createDateRangeCte.
  rewrite minDateColumn_erase, maxDateColumn_erase.
  destruct (List.filter _ groupBy) as [|g [|g' gs]]; simpl; auto.
  destruct (g_temporalUnit g) as [u|]; simpl; auto.
  destruct (minDateColumn fs) as [lo|]; simpl; auto.
  destruct (maxDateColumn fs) as [hi|]; simpl; auto.
  destruct (_ || _); simpl; auto.
  destruct (getColumnDefinition defs from (f_column lo)); simpl; auto.
Qed.

Lemma bind_rel {A B C D} (g : A -> D) (f : B -> C) (r r' : result A)
  (k k' : A -> result B) :
  resultMap g r = resultMap g r' ->
  (forall a a', g a = g a' -> resultMap f (k a) = resultMap f (k' a')) ->
  resultMap f (bind r k) = resultMap f (bind r' k').
Proof.
  destruct r as [a|e], r' as [a'|e']; simpl; intros H Hk;
    try discriminate.
  - injection H as H. now apply Hk.
  - congruence.
Qed.

Lemma limitString_shape (l l' : option number) :
  match l with Some n => truthyNumber n | None => false end
  = match l' with Some n => truthyNumber n | None => false end ->
  shapeOf (limitString l) = shapeOf (limitString l').
Proof.
  unfold limitString. destruct l as [n|], l' as [n'|]; simpl;
    try destruct (truthyNumber n); try destruct (truthyNumber n');
    simpl; intros H; try discriminate; reflexivity.
Qed.

(** Queries that agree on everything the text is made of compile to the
    same text pieces, or fail with the same exception. *)
Lemma createQuery_shape (q q' : Query) :
  q_from q = q_from q' ->
  q_select q = q_select q' ->
  q_groupBy q = q_groupBy q' ->
  q_orderBy q = q_orderBy q' ->
  option_map (map eraseValue) (q_filter q)
    = option_map (map eraseValue) (q_filter q') ->
  hasLimit q = hasLimit q' ->
  resultMap shapeOf (createQuery defs q)
  = resultMap shapeOf (createQuery defs q').
Proof.
  destruct q as [from sel fl gb ob lim], q' as [from' sel' fl' gb' ob' lim'].
  unfold hasLimit. simpl. intros <- <- <- <- Hfl Hlim.
  assert (Hfs : map eraseValue (orEmpty fl) = map eraseValue (orEmpty fl')).
  { destruct fl, fl'; simpl in *; congruence. }
  unfold createQuery. simpl.
  apply (bind_rel (option_map planShape)).
  { rewrite <- (createDateRangeCte_erase from (orEmpty fl)).
    rewrite <- (createDateRangeCte_erase from (orEmpty fl')).
    now rewrite Hfs. }
  assert (Hfilter : forall b,
             resultMap shapeOf (filterString defs from fl b)
             = resultMap shapeOf (filterString defs from fl' b)).
  { intros b. rewrite <- (filterString_erase from fl).
    rewrite <- (filterString_erase from fl'). now rewrite Hfl. }
  pose proof (limitString_shape lim lim' Hlim) as Hl.
  intros cte cte' Hcte.
  destruct cte as [p|], cte' as [p'|]; simpl in Hcte; try discriminate.
  - injection Hcte as Hc Hf Hcol. unfold seriesField. rewrite Hcol, Hf.
    simpl isSome.
    apply (bind_rel (fun x => x)); [reflexivity|]. intros fields ? <-.
    apply (bind_rel (fun x => x)); [reflexivity|]. intros groupS ? <-.
    apply (bind_rel (fun x => x)); [reflexivity|]. intros selectS ? <-.
    apply (bind_rel (fun x => x)); [reflexivity|]. intros orderByS ? <-.
    apply (bind_rel shapeOf); [apply Hfilter|].
    intros filterS filterS' Hfs'. cbn [resultMap]. f_equal.
    now rewrite !shapeOf_app, Hc, Hfs', Hl.
  - simpl isSome.
    apply (bind_rel (fun x => x)); [reflexivity|]. intros fields ? <-.
    apply (bind_rel (fun x => x)); [reflexivity|]. intros groupS ? <-.
    apply (bind_rel (fun x => x)); [reflexivity|]. intros selectS ? <-.
    apply (bind_rel (fun x => x)); [reflexivity|]. intros orderByS ? <-.
    apply (bind_rel shapeOf); [apply Hfilter|].
    intros filterS filterS' Hfs'. cbn [resultMap]. f_equal.
    now rewrite !shapeOf_app, Hfs', Hl.
Qed.

Lemma resultMap_text_of_shape (r r' : result Sql) :
  resultMap shapeOf r = resultMap shapeOf r' ->
  resultMap sqlText r = resultMap sqlText r'.
Proof.
  destruct r as [a|e], r' as [a'|e']; simpl; intros H;
    try discriminate; [|congruence].
  injection H as H. unfold sqlText. now rewrite (render_shape _ _ H).
Qed.

Lemma rangeBounds_cases (from : TableName) (fs : list Filter)
  (groupBy : list GroupBy) (cte : option BucketPlan) :
  createDateRangeCte defs from fs groupBy = Ok cte ->
  (cte = None /\ rangeBounds cte = []) \/
  (exists plan lo hi,
     cte = Some plan /\
     minDateColumn fs = Some lo /\ maxDateColumn fs = Some hi /\
     rangeBounds cte = [f_value lo; f_value hi]).
Proof.
  intros H. destruct cte as [plan|]; [right|left; auto].
  apply createDateRangeCte_Some in H.
  destruct H as (g & u & lo & hi & cd & _ & _ & Hlo & Hhi & _ & _ & _ & ->).
  eexists; exists lo, hi. repeat split; auto.
Qed.

Lemma erase_mandatory (t : TableName) (P1 P2 : string) :
  map eraseValue (getMandatoryFilter t P1)
  = map eraseValue (getMandatoryFilter t P2).
Proof. destruct t; reflexivity. Qed.

(** C2 (as amended).  Two queries that are identical except in their
    literal values (filter values, tenant identifier, range bounds, limit
    value) and that agree on whether the limit is acted on (present and
    not zero) compile to the same statement text, or fail with the same
    exception; and the parameter list of a compiled statement consists of
    exactly those literals: the two range bounds when there is a plan, the
    value of every user filter, the tenant identifier once per tenant
    filter, and the limit when it is acted on. *)
Theorem literals_only_in_parameters (P1 P2 : string) (q1 q2 : Query) :
  eraseLiterals q1 = eraseLiterals q2 ->
  hasLimit q1 = hasLimit q2 ->
  resultMap sqlText (enrichAndCreateQuery defs P1 q1)
    = resultMap sqlText (enrichAndCreateQuery defs P2 q2) /\
  forall sql,
    enrichAndCreateQuery defs P1 q1 = Ok sql ->
    exists cte,
      createDateRangeCte defs (q_from q1)
        (orEmpty (q_filter q1) ++ getMandatoryFilter (q_from q1) P1)
        (orEmpty (q_groupBy q1)) = Ok cte /\
      ((cte = None /\ rangeBounds cte = []) \/
       (exists plan lo hi,
          cte = Some plan /\
          minDateColumn (orEmpty (q_filter q1)
                         ++ getMandatoryFilter (q_from q1) P1) = Some lo /\
          maxDateColumn (orEmpty (q_filter q1)
                         ++ getMandatoryFilter (q_from q1) P1) = Some hi /\
          rangeBounds cte = [f_value lo; f_value hi])) /\
      sqlValues sql =
        rangeBounds cte
        ++ map f_value (orEmpty (q_filter q1))
        ++ map (fun _ => VString P1) (getMandatoryFilter (q_from q1) P1)
        ++ match q_limit q1 with
           | Some n => if truthyNumber n then [VNumber n] else []
           | None => []
           end.
Proof.
  intros He Hl. split.
  - apply resultMap_text_of_shape. rewrite !enrich_unfold.
    assert (Hfrom : q_from q1 = q_from q2)
      by exact (f_equal q_from He).
    apply createQuery_shape; simpl; auto.
    + exact (f_equal q_select He).
    + exact (f_equal q_groupBy He).
    + exact (f_equal q_orderBy He).
    + f_equal. rewrite !map_app. rewrite <- Hfrom.
      rewrite (erase_mandatory (q_from q1) P1 P2). f_equal.
      pose proof (f_equal q_filter He) as Hf. simpl in Hf.
      destruct (q_filter q1), (q_filter q2); simpl in *; congruence.
  - intros sql H. rewrite enrich_unfold in H.
    destruct (createQuery_values _ H) as (cte & Hcte & Hv).
    simpl in Hcte, Hv. exists cte. split; [exact Hcte|]. split.
    + exact (rangeBounds_cases _ _ _ Hcte).
    + rewrite Hv. unfold rangeBounds.
      rewrite map_app, <- app_assoc, getMandatoryFilter_values.
      destruct cte; destruct (q_limit q1) as [n|];
        try destruct (truthyNumber n) eqn:En; unfold limitString;
        rewrite ?En; reflexivity.
Qed.

(* ------------------------------------------------------------------ *)
(** *** Range filters and the plan *)

Lemma count_occ_In_pos (l : list Value) (v : Value) :
  In v l -> 1 <= count_occ Value_eq_dec l v.
Proof. intros H. now apply count_occ_In. Qed.

Lemma count_occ_bound_again (v w x : Value) (l l' : list Value) :
  In x l -> x = v \/ x = w ->
  2 <= count_occ Value_eq_dec (v :: w :: l ++ l') x.
Proof.
  intros Hin Hx.
  assert (H1 : 1 <= count_occ Value_eq_dec (l ++ l') x).
  { rewrite count_occ_app. pose proof (count_occ_In_pos _ _ Hin). lia. }
  simpl.
  destruct (Value_eq_dec v x), (Value_eq_dec w x); try lia.
  destruct Hx; congruence.
Qed.

(** C3 (as amended).  When a bucket plan exists, the values of the two
    range filters found are bound as the bounds of generate_series, and
    the two filters also stay in the filter list, which is compiled whole
    into the predicates appended with AND: the parameter list is the two
    bounds followed by the value of every filter, so each bound value is
    bound at least twice. *)
Theorem range_filters_bound_in_cte_and_predicates (q : Query) (sql : Sql)
  (plan : BucketPlan) :
  createDateRangeCte defs (q_from q) (orEmpty (q_filter q))
    (orEmpty (q_groupBy q)) = Ok (Some plan) ->
  createQuery defs q = Ok sql ->
  exists lo hi filterS,
    minDateColumn (orEmpty (q_filter q)) = Some lo /\
    maxDateColumn (orEmpty (q_filter q)) = Some hi /\
    In lo (orEmpty (q_filter q)) /\
    In hi (orEmpty (q_filter q)) /\
    sqlValues (p_cte plan) = [f_value lo; f_value hi] /\
    prepareFilterString (q_from q) (orEmpty (q_filter q))
      (columns (defs (q_from q))) = Ok filterS /\
    filterString defs (q_from q) (q_filter q) true
      = Ok (raw " " ++ raw " AND " ++ raw " " ++ filterS) /\
    sqlValues filterS = map f_value (orEmpty (q_filter q)) /\
    sqlValues sql =
      f_value lo :: f_value hi :: map f_value (orEmpty (q_filter q))
      ++ sqlValues (limitString (q_limit q)) /\
    2 <= count_occ Value_eq_dec (sqlValues sql) (f_value lo) /\
    2 <= count_occ Value_eq_dec (sqlValues sql) (f_value hi).
Proof.
  intros Hplan H.
  destruct (createQuery_values _ H) as (cte & Hcte & Hv).
  rewrite Hplan in Hcte. injection Hcte as <-.
  apply createQuery_inv in H.
  destruct H as (cte' & fields & groupS & selectS & orderByS & fS
                 & Hcte' & _ & _ & _ & _ & Hfl & _).
  rewrite Hplan in Hcte'. injection Hcte' as <-. simpl in Hfl.
  apply createDateRangeCte_Some in Hplan.
  destruct Hplan as (g & u & lo & hi & cd & _ & _ & Hlo & Hhi & _ & _ & _
                     & ->).
  destruct (minDateColumn_In _ Hlo) as (Ilo & _ & _).
  destruct (maxDateColumn_In _ Hhi) as (Ihi & _ & _).
  simpl in Hv.
  unfold filterString in Hfl.
  destruct (q_filter q) as [[|f fs]|]; try (exfalso; exact Ilo).
  inv_bind Hfl. injection Hfl as <-.
  exists lo, hi, x. simpl orEmpty in *.
  pose proof (prepareFilterString_values _ _ _ E) as Hx.
  repeat split; auto.
  - unfold filterString. now rewrite E.
  - rewrite Hv. apply count_occ_bound_again; auto using in_map.
  - rewrite Hv. apply count_occ_bound_again; auto using in_map.
Qed.

(* ------------------------------------------------------------------ *)
(** *** No range, no plan *)

Lemma find_all_false {A} (p : A -> bool) (l : list A) :
  (forall x, In x l -> p x = false) -> find p l = None.
Proof.
  intros H. destruct (find p l) as [x|] eqn:E; [|reflexivity].
  apply find_some in E. destruct E as [Hin Hp].
  rewrite (H x Hin) in Hp. discriminate.
Qed.

(** X16.  With one datetime group-by, the planner returns no plan, and
    no exception, when there are fewer than two datetime filters, or no
    filter with operator > or >=, or none with operator < or <=. *)
Lemma no_plan_without_range (from : TableName) (filters : list Filter)
  (groupBy : list GroupBy) (g : GroupBy) :
  List.filter (fun x => isDatetime (g_type x)) groupBy = [g] ->
  List.length (List.filter isTimeRangeFilter filters) < 2 \/
  (forall f, In f filters -> isLowerBound f = false) \/
  (forall f, In f filters -> isUpperBound f = false) ->
  createDateRangeCte defs from filters groupBy = Ok None.
Proof.
  intros Hg H. unfold createDateRangeCte. rewrite Hg.
  assert (Hn : minDateColumn filters = None \/ maxDateColumn filters = None).
  { unfold minDateColumn, maxDateColumn. cbv zeta.
    destruct H as [H|[H|H]].
    - left. destruct (Nat.ltb_spec 1
                        (List.length (List.filter isTimeRangeFilter filters)));
        [lia | reflexivity].
    - left. destruct (1 <? _); [|reflexivity].
      apply find_all_false. intros x Hx. apply filter_In in Hx.
      now apply H.
    - right. destruct (1 <? _); [|reflexivity].
      apply find_all_false. intros x Hx. apply filter_In in Hx.
      now apply H. }
  destruct (g_temporalUnit g); [|reflexivity].
  destruct Hn as [-> | ->]; [reflexivity|].
  destruct (minDateColumn filters); reflexivity.
Qed.

(* ------------------------------------------------------------------ *)
(** *** Semantic violations *)

(** C6.  Compilation fails, returning an exception and no statement:
    with [MultipleDatetimeGroupBy] whenever the group-by list holds more
    than one entry of type datetime, and with [MismatchedRangeColumn]
    whenever, for the single datetime group-by (which carries its
    temporal unit), a lower-bound and an upper-bound datetime filter are
    both found and the column of either differs from the group-by
    column. *)
Theorem semantic_violations_fail (q : Query) :
  (1 < List.length (List.filter (fun x => isDatetime (g_type x))
                      (orEmpty (q_groupBy q))) ->
   createDateRangeCte defs (q_from q) (orEmpty (q_filter q))
     (orEmpty (q_groupBy q)) = Err MultipleDatetimeGroupBy /\
   createQuery defs q = Err MultipleDatetimeGroupBy) /\
  (forall g u lo hi,
     List.filter (fun x => isDatetime (g_type x)) (orEmpty (q_groupBy q))
       = [g] ->
     g_temporalUnit g = Some u ->
     minDateColumn (orEmpty (q_filter q)) = Some lo ->
     maxDateColumn (orEmpty (q_filter q)) = Some hi ->
     f_column lo <> g_column g \/ f_column hi <> g_column g ->
     createDateRangeCte defs (q_from q) (orEmpty (q_filter q))
       (orEmpty (q_groupBy q)) = Err MismatchedRangeColumn /\
     createQuery defs q = Err MismatchedRangeColumn).
Proof.
  split.
  - intros H.
    assert (E : createDateRangeCte defs (q_from q) (orEmpty (q_filter q))
                  (orEmpty (q_groupBy q)) = Err MultipleDatetimeGroupBy).
    { unfold createDateRangeCte.
      destruct (List.filter _ (orEmpty (q_groupBy q))) as [|g [|g' gs]];
        simpl in H; try lia. reflexivity. }
    split; [exact E|]. unfold createQuery. now rewrite E.
  - intros g u lo hi Hg Hu Hlo Hhi Hne.
    assert (E : createDateRangeCte defs (q_from q) (orEmpty (q_filter q))
                  (orEmpty (q_groupBy q)) = Err MismatchedRangeColumn).
    { unfold createDateRangeCte. rewrite Hg, Hu, Hlo, Hhi.
      destruct (String.eqb_spec (f_column lo) (g_column g));
        destruct (String.eqb_spec (f_column hi) (g_column g));
        simpl; try reflexivity.
      destruct Hne; contradiction. }
    split; [exact E|]. unfold createQuery. now rewrite E.
Qed.

(* ------------------------------------------------------------------ *)
(** *** Aliases *)


(* ------------------------------------------------------------------ *)
(** *** A limit of zero *)

(** C10.  A limit equal to zero is not acted on: no LIMIT clause is
    emitted and no limit parameter is bound, the query compiling to
    exactly what it compiles to without a limit. *)
Theorem zero_limit_is_no_limit (projectId : string) (q : Query)
  (s : bool) :
  numberOfZ 0 = S754_zero false /\
  limitString (Some (S754_zero s)) = empty /\
  sqlText (limitString (Some (S754_zero s))) = EmptyString /\
  sqlValues (limitString (Some (S754_zero s))) = [] /\
  sqlText (limitString (Some (numberOfZ 5))) = " LIMIT $1" /\
  sqlValues (limitString (Some (numberOfZ 5))) = [VNumber (numberOfZ 5)] /\
  createQuery defs (withLimit q (Some (S754_zero s)))
    = createQuery defs (withLimit q None) /\
  enrichAndCreateQuery defs projectId (withLimit q (Some (S754_zero s)))
    = enrichAndCreateQuery defs projectId (withLimit q None).
Proof. repeat split; reflexivity. Qed.

(* ------------------------------------------------------------------ *)
(** *** The simplest query *)

Lemma prepareFilter_tenant (t : TableName) (f : Filter)
  (tcd : ColumnDefinition) :
  f_type f = TString ->
  f_column f <> "type" ->
  findColumn (columns (defs t)) (f_column f) = Some tcd ->
  prepareFilter t (columns (defs t)) f
  = Ok (raw (internal tcd) ++ raw " " ++ raw (f_operator f) ++ raw " "
        ++ val (f_value f) ++ raw " ").
Proof.
  intros Ht Hn Hf. unfold prepareFilter. rewrite Hf, Ht. simpl.
  rewrite (findColumn_name _ _ Hf).
  destruct (String.eqb_spec (f_column f) "type"); [contradiction|].
  reflexivity.
Qed.

(** C4 (as amended).  For every table T and tenant P, a query selecting
    exactly one column with no aggregation, no user filter, no group-by,
    no order-by and no limit compiles to the single statement
    [SELECT <col> FROM <physical(T)> WHERE <tenantPredicate(P)>;] whose
    parameter list binds P once per tenant filter of T and nothing else:
    it is [P] for traces, traces_scores and observations, and [P; P] for
    the two join tables. *)
Theorem single_column_query (projectId : string) (q : Query)
  (c : string) (cd : ColumnDefinition) (tcds : list ColumnDefinition) :
  q_select q = [{| s_column := c; s_agg := None |}] ->
  orEmpty (q_filter q) = [] ->
  orEmpty (q_groupBy q) = [] ->
  orEmpty (q_orderBy q) = [] ->
  q_limit q = None ->
  findColumn (columns (defs (q_from q))) c = Some cd ->
  Forall2 (fun f tcd =>
             findColumn (columns (defs (q_from q))) (f_column f) = Some tcd)
    (getMandatoryFilter (q_from q) projectId) tcds ->
  exists sql,
    enrichAndCreateQuery defs projectId q = Ok sql /\
    sqlText sql =
      " SELECT " ^^ internal cd ^^ " as " ^^ dquote ^^ c ^^ dquote
      ^^ " FROM " ^^ table (defs (q_from q))
      ^^ "  WHERE  " ^^ tenantPredicate 1 tcds ^^ ";" /\
    sqlValues sql = map (fun _ => VString projectId) tcds /\
    List.length tcds =
      match q_from q with
      | traces | traces_scores | observations => 1
      | traces_observations | traces_parent_observation_scores => 2
      end.
Proof.
  destruct q as [from sel fl gb ob lim]. simpl.
  intros -> Hfl Hgb Hob -> Hc Ht.
  unfold enrichAndCreateQuery, createQuery. simpl. rewrite Hfl, Hgb.
  unfold selectField, getColumnDefinition, groupString,
    prepareOrderByString, filterString, prepareFilterString.
  simpl. rewrite Hc, Hgb, Hob. simpl.
  rewrite (findColumn_name _ _ Hc).
  destruct from; simpl in Ht |- *;
    repeat match goal with
           | H : Forall2 _ (_ :: _) _ |- _ => inversion H; clear H; subst
           | H : Forall2 _ [] _ |- _ => inversion H; clear H; subst
           end;
    repeat match goal with
           | H : findColumn _ (f_column ?f) = Some _ |- _ =>
               rewrite (@prepareFilter_tenant _ f _ eq_refl
                          ltac:(simpl; discriminate) H);
               clear H
           end;
    simpl; eexists; (split; [reflexivity|]);
    unfold sqlText; simpl;
    repeat (rewrite ?append_assoc, ?append_empty_r; simpl);
    repeat split; reflexivity.
Qed.

(* ------------------------------------------------------------------ *)
(** *** The statement under a bucket plan *)

Lemma prepareGroupBy_Ok (t : TableName) (gb : GroupBy) (s : Sql) :
  prepareGroupBy defs t gb = Ok s ->
  if isDatetime (g_type gb)
  then s = raw dateSeries
  else exists cd,
         getColumnDefinition defs t (g_column gb) = Ok cd /\
         s = raw (internal cd).
Proof.
  unfold prepareGroupBy. intros H. inv_bind H.
  destruct (isDatetime (g_type gb)); injection H as <-; eauto.
Qed.

Lemma Forall2_impl {A B} (P Q : A -> B -> Prop) (l : list A)
  (l' : list B) :
  (forall a b, P a b -> Q a b) -> Forall2 P l l' -> Forall2 Q l l'.
Proof. intros H F. induction F; constructor; auto. Qed.

(** C5.  Whenever a bucket plan exists, the compiled statement (a) has
    the series column, [date_series."date"] aliased to the name of the
    datetime column, in front of all other SELECT columns, (b) has the
    join of date_series with the table on the equality of the truncated
    timestamps as its FROM source, (c) groups by [date_series."date"]
    wherever the datetime dimension stands in the group-by list, and by
    the registry expression of the column elsewhere, and (d) orders by
    [date_series."date" ASC] before every explicit ORDER BY term. *)
Theorem bucket_plan_rewrites_statement (q : Query) (plan : BucketPlan)
  (sql : Sql) :
  createDateRangeCte defs (q_from q) (orEmpty (q_filter q))
    (orEmpty (q_groupBy q)) = Ok (Some plan) ->
  createQuery defs q = Ok sql ->
  exists g u fields groups groupJ orders filterS,
    List.filter (fun x => isDatetime (g_type x)) (orEmpty (q_groupBy q))
      = [g] /\
    g_temporalUnit g = Some u /\
    name (p_column plan) = g_column g /\
    sqlText (seriesField plan)
      = dateSeries ^^ " as " ^^ dquote ^^ g_column g ^^ dquote /\
    p_from plan = modifiedFrom defs (q_from q) u (p_column plan) /\
    sqlText (p_from plan)
      = " FROM date_series LEFT JOIN " ^^ table (defs (q_from q))
        ^^ " ON DATE_TRUNC('" ^^ u ^^ "', " ^^ internal (p_column plan)
        ^^ ") = DATE_TRUNC('" ^^ u ^^ "', " ^^ dateSeries ^^ ")" /\
    mapM (selectField defs (q_from q)) (q_select q) = Ok fields /\
    Forall2 (fun gb s =>
               if isDatetime (g_type gb)
               then s = raw dateSeries
               else exists cd,
                      getColumnDefinition defs (q_from q) (g_column gb)
                        = Ok cd /\
                      s = raw (internal cd))
      (orEmpty (q_groupBy q)) groups /\
    join groups ", " = Ok groupJ /\
    mapM (prepareOrderBy defs (q_from q)) (orEmpty (q_orderBy q))
      = Ok orders /\
    filterString defs (q_from q) (q_filter q) true = Ok filterS /\
    sql =
      p_cte plan
      ++ (raw " SELECT " ++ seriesField plan
          ++ flat_map (fun y => Raw ", " :: y) fields)
      ++ p_from plan
      ++ filterS
      ++ (raw " GROUP BY " ++ groupJ)
      ++ (raw " ORDER BY " ++ raw (dateSeries ^^ " ASC")
          ++ flat_map (fun y => Raw ", " :: y) orders)
      ++ limitString (q_limit q)
      ++ raw ";".
Proof.
  intros Hplan H. apply createQuery_inv in H.
  destruct H as (cte & fields & groupS & selectS & orderByS & filterS
                 & Hcte & Hf & Hg & Hs & Ho & Hfl & ->).
  rewrite Hplan in Hcte. injection Hcte as <-. simpl in Hg, Hs, Ho, Hfl.
  apply createDateRangeCte_Some in Hplan.
  destruct Hplan as (g & u & lo & hi & cd & Hgs & Hu & _ & _ & _ & _ & Hcd
                     & ->).
  unfold groupString in Hg. rewrite Bool.orb_true_r in Hg. inv_bind Hg.
  rename x into groups.
  assert (Hne : groups <> []).
  { intros ->. destruct (orEmpty (q_groupBy q)) as [|g0 gs];
      [discriminate|]. simpl in E. inv_bind E. inv_bind E. discriminate. }
  destruct groups as [|g0 gs]; [contradiction|]. inv_bind Hg.
  injection Hg as <-. rename x into groupJ.
  unfold selectString in Hs. simpl in Hs. injection Hs as <-.
  unfold prepareOrderByString in Ho. inv_bind Ho. simpl in Ho.
  injection Ho as <-. rename x into orders.
  exists g, u, fields, (g0 :: gs), groupJ, orders, filterS.
  pose proof (getColumnDefinition_name _ _ Hcd) as Hn.
  repeat split; auto.
  - unfold seriesField, sqlText. simpl. rewrite Hn.
    repeat (rewrite ?append_assoc, ?append_empty_r; simpl). reflexivity.
  - apply mapM_Ok_Forall2 in E.
    eapply Forall2_impl; [|exact E]. apply prepareGroupBy_Ok.
Qed.

End CompilerFacts.

(* ================================================================== *)
(** ** Facts about the result normalizer *)

Lemma parseCell_recognised (v : JsValue) :
  recognised v = true ->
  exists w, parseCell v = Ok w /\ converted v w /\ portable w = true.
Proof.
  destruct v; simpl; intros H; try discriminate; eexists; eauto.
Qed.

Lemma parseCell_Err (v : JsValue) (e : Error) :
  parseCell v = Err e -> e = UnknownType (typeof v) /\ recognised v = false.
Proof.
  destruct v; simpl; intros H; try discriminate;
    injection H as <-; auto.
Qed.

Lemma parseCell_unrecognised (v : JsValue) :
  recognised v = false -> parseCell v = Err (UnknownType (typeof v)).
Proof. destruct v; simpl; intros H; try discriminate; reflexivity. Qed.

Lemma parseRow_recognised (row : Row) :
  Forall (fun kv => recognised (snd kv) = true) row ->
  exists out, parseRow row = Ok out /\ Forall2 normalisedCell row out.
Proof.
  unfold parseRow. induction 1 as [|kv row Hkv _ (out & Hout & IH)]; simpl.
  - exists []. split; [reflexivity | constructor].
  - destruct (parseCell_recognised _ Hkv) as (w & -> & Hc & Hp).
    simpl. rewrite Hout. simpl. eexists. split; [reflexivity|].
    constructor; [|exact IH]. repeat split; assumption.
Qed.

Lemma parseRow_Err (row : Row) (e : Error) :
  parseRow row = Err e ->
  exists v, e = UnknownType (typeof v) /\ recognised v = false.
Proof.
  unfold parseRow. induction row as [|kv row IH]; simpl; [discriminate|].
  destruct (parseCell (snd kv)) as [w|e'] eqn:Ev; simpl.
  - destruct (mapM _ row) as [out|e'']; simpl; [discriminate|].
    intros H. injection H as <-. now apply IH.
  - intros H. injection H as <-. exists (snd kv).
    now apply parseCell_Err.
Qed.

Lemma parseRow_unrecognised (row : Row) :
  Exists (fun kv => recognised (snd kv) = false) row ->
  exists v, parseRow row = Err (UnknownType (typeof v)) /\
            recognised v = false.
Proof.
  induction 1 as [kv row Hkv | kv row _ (v & Hv & Hr)].
  - exists (snd kv). unfold parseRow. simpl.
    now rewrite (parseCell_unrecognised _ Hkv).
  - destruct (parseRow (kv :: row)) as [out|e] eqn:E.
    + exfalso. unfold parseRow in E, Hv. simpl in E.
      destruct (parseCell (snd kv)); simpl in E; [|discriminate].
      rewrite Hv in E. simpl in E. discriminate.
    + destruct (parseRow_Err _ E) as (v' & -> & Hr'). eauto.
Qed.

(** C9.  For every row list, the normalizer maps each cell by type: a
    bigint to the number nearest to it, a decimal to the number nearest
    to it, and a number, a string, a Date or null to itself, keeping the
    keys, so that every cell of the result is a number, a string, a Date
    or null; decimal 10.5 yields the number 10.5, bigint 42 the number
    42, and null yields null; and when some cell is of any other run-time
    type the whole call throws "Unknown type" and returns no rows. *)
Theorem outputParser_normalizes (rows : list Row) :
  (Forall (Forall (fun kv => recognised (snd kv) = true)) rows ->
   exists out,
     outputParser rows = Ok out /\
     Forall2 (Forall2 normalisedCell) rows out) /\
  (Exists (Exists (fun kv => recognised (snd kv) = false)) rows ->
   exists v,
     outputParser rows = Err (UnknownType (typeof v)) /\
     recognised v = false) /\
  outputParser [[("a", JDecimal (DecFinite false 105 (-1)));
                 ("b", JBigInt 42);
                 ("c", JNull)]]
  = Ok [[("a", JNumber (S754_finite false 5910974510923776 (-49)));
         ("b", JNumber (S754_finite false 5910974510923776 (-47)));
         ("c", JNull)]] /\
  (5910974510923776 * 2 = 21 * 2 ^ 49)%Z /\
  (5910974510923776 = 42 * 2 ^ 47)%Z.
Proof.
  split; [|split; [|repeat split; reflexivity]].
  - unfold outputParser.
    induction 1 as [|row rows Hrow _ (out & Hout & IH)]; simpl.
    + exists []. split; [reflexivity | constructor].
    + destruct (parseRow_recognised Hrow) as (r & -> & Hr). simpl.
      rewrite Hout. simpl. eexists. split; [reflexivity|].
      constructor; assumption.
  - unfold outputParser.
    induction 1 as [row rows Hrow | row rows _ (v & Hv & Hr)]; simpl.
    + destruct (parseRow_unrecognised Hrow) as (v & -> & Hr). simpl. eauto.
    + destruct (parseRow row) as [r|e] eqn:E; simpl.
      * rewrite Hv. simpl. eauto.
      * destruct (parseRow_Err _ E) as (v' & -> & Hr'). simpl. eauto.
Qed.

(* ================================================================== *)
(** ** The compiler on the sample registry *)


Lemma literals_only_in_parameters_witness :
  eraseLiterals bucketQuery = eraseLiterals laterBucketQuery /\
  hasLimit bucketQuery = hasLimit laterBucketQuery /\
  resultMap sqlText
    (enrichAndCreateQuery sampleDefinitions "project-1" bucketQuery)
  = resultMap sqlText
      (enrichAndCreateQuery sampleDefinitions "project-2" laterBucketQuery).
Proof.
  split; [reflexivity|]. split; [reflexivity|].
  exact (proj1 (@literals_only_in_parameters sampleDefinitions
                  "project-1" "project-2" bucketQuery laterBucketQuery
                  eq_refl eq_refl)).
Defined.

(** Two queries that differ only in the value of their limit, 0 and 5,
    compile to different texts. *)
Lemma limit_value_changes_text :
  eraseLiterals (withLimit (plainQuery traces "id") (Some (numberOfZ 0)))
  = eraseLiterals (withLimit (plainQuery traces "id") (Some (numberOfZ 5)))
  /\
  resultMap sqlText
    (enrichAndCreateQuery sampleDefinitions "project-1"
       (withLimit (plainQuery traces "id") (Some (numberOfZ 0))))
  = Ok (" SELECT t.id as " ^^ dquote ^^ "id" ^^ dquote
        ^^ " FROM traces t  WHERE  t.project_id = $1 ;") /\
  resultMap sqlText
    (enrichAndCreateQuery sampleDefinitions "project-1"
       (withLimit (plainQuery traces "id") (Some (numberOfZ 5))))
  = Ok (" SELECT t.id as " ^^ dquote ^^ "id" ^^ dquote
        ^^ " FROM traces t  WHERE  t.project_id = $1  LIMIT $2;") /\
  resultMap sqlText
    (enrichAndCreateQuery sampleDefinitions "project-1"
       (withLimit (plainQuery traces "id") (Some (numberOfZ 0))))
  <> resultMap sqlText
       (enrichAndCreateQuery sampleDefinitions "project-1"
          (withLimit (plainQuery traces "id") (Some (numberOfZ 5)))).
Proof.
  repeat split; try reflexivity.
  intros H. vm_compute in H. discriminate H.
Qed.

(** The two bounds of [bucketQuery] are bound in the series and again in
    the predicates after AND. *)
Lemma range_bounds_bound_twice :
  createDateRangeCte sampleDefinitions traces
    (orEmpty (q_filter bucketQuery)) (orEmpty (q_groupBy bucketQuery))
  = Ok (Some bucketPlan) /\
  sqlValues (compiled (createQuery sampleDefinitions bucketQuery))
  = [VDate 100; VDate 200; VDate 100; VDate 200] /\
  count_occ Value_eq_dec
    (sqlValues (compiled (createQuery sampleDefinitions bucketQuery)))
    (VDate 100) = 2 /\
  count_occ Value_eq_dec
    (sqlValues (compiled (createQuery sampleDefinitions bucketQuery)))
    (VDate 200) = 2 /\
  resultMap sqlText (createQuery sampleDefinitions bucketQuery)
  = Ok (newline ^^ "      WITH date_series AS (" ^^ newline
        ^^ "        SELECT generate_series($1, $2, '1 day') as date"
        ^^ newline ^^ "      )" ^^ newline
        ^^ "     SELECT date_series." ^^ dquote ^^ "date" ^^ dquote
        ^^ " as " ^^ dquote ^^ "timestamp" ^^ dquote
        ^^ ", COUNT(t.id) as " ^^ dquote ^^ "countId" ^^ dquote
        ^^ " FROM date_series LEFT JOIN traces t"
        ^^ " ON DATE_TRUNC('day', t.timestamp) = DATE_TRUNC('day', date_series."
        ^^ dquote ^^ "date" ^^ dquote ^^ ")"
        ^^ "  AND  t.timestamp >= $3 AND t.timestamp < $4"
        ^^ " GROUP BY date_series." ^^ dquote ^^ "date" ^^ dquote
        ^^ ", t.name"
        ^^ " ORDER BY date_series." ^^ dquote ^^ "date" ^^ dquote
        ^^ " ASC, COUNT(t.id) DESC;").
Proof. repeat split; vm_compute; reflexivity. Qed.

Lemma range_filters_bound_in_cte_and_predicates_witness :
  createDateRangeCte sampleDefinitions (q_from bucketQuery)
    (orEmpty (q_filter bucketQuery)) (orEmpty (q_groupBy bucketQuery))
  = Ok (Some bucketPlan) /\
  createQuery sampleDefinitions bucketQuery
  = Ok (compiled (createQuery sampleDefinitions bucketQuery)) /\
  2 <= count_occ Value_eq_dec
         (sqlValues (compiled (createQuery sampleDefinitions bucketQuery)))
         (VDate 100).
Proof.
  split; [reflexivity|]. split; [reflexivity|].
  destruct (@range_filters_bound_in_cte_and_predicates sampleDefinitions
              bucketQuery
              (compiled (createQuery sampleDefinitions bucketQuery))
              bucketPlan eq_refl eq_refl)
    as (lo & hi & filterS & Hlo & _ & _ & _ & _ & _ & _ & _ & _ & Hc & _).
  vm_compute in Hlo. injection Hlo as <-. exact Hc.
Defined.

(** On a join table the tenant is bound twice, not once. *)
Lemma join_table_binds_tenant_twice :
  enrichAndCreateQuery sampleDefinitions "project-1"
    (plainQuery traces_observations "id")
  = Ok (compiled (enrichAndCreateQuery sampleDefinitions "project-1"
                    (plainQuery traces_observations "id"))) /\
  sqlText (compiled (enrichAndCreateQuery sampleDefinitions "project-1"
                       (plainQuery traces_observations "id")))
  = " SELECT t.id as " ^^ dquote ^^ "id" ^^ dquote
    ^^ " FROM traces t LEFT JOIN observations o ON t.id = o.trace_id"
    ^^ "  WHERE  t.project_id = $1  AND o.project_id = $2 ;" /\
  sqlValues (compiled (enrichAndCreateQuery sampleDefinitions "project-1"
                         (plainQuery traces_observations "id")))
  = [VString "project-1"; VString "project-1"] /\
  sqlValues (compiled (enrichAndCreateQuery sampleDefinitions "project-1"
                         (plainQuery traces_observations "id")))
  <> [VString "project-1"].
Proof.
  repeat split; try reflexivity.
  intros H. vm_compute in H. discriminate H.
Qed.

Lemma single_column_query_witness :
  exists sql,
    enrichAndCreateQuery sampleDefinitions "project-1"
      (plainQuery traces_parent_observation_scores "value") = Ok sql /\
    sqlText sql =
      " SELECT " ^^ "s.value" ^^ " as " ^^ dquote ^^ "value" ^^ dquote
      ^^ " FROM "
      ^^ table (sampleDefinitions traces_parent_observation_scores)
      ^^ "  WHERE  "
      ^^ tenantPredicate 1
           [col "tracesProjectId" TString "t.project_id";
            col "observationsProjectId" TString "o.project_id"]
      ^^ ";" /\
    sqlValues sql = [VString "project-1"; VString "project-1"] /\
    List.length [col "tracesProjectId" TString "t.project_id";
                 col "observationsProjectId" TString "o.project_id"] = 2.
Proof.
  refine (@single_column_query sampleDefinitions "project-1"
           (plainQuery traces_parent_observation_scores "value")
           "value" (col "value" TNumber "s.value")
           [col "tracesProjectId" TString "t.project_id";
            col "observationsProjectId" TString "o.project_id"]
           eq_refl eq_refl eq_refl eq_refl eq_refl eq_refl _).
  simpl. repeat constructor.
Defined.

Lemma bucket_plan_rewrites_statement_witness :
  createDateRangeCte sampleDefinitions (q_from bucketQuery)
    (orEmpty (q_filter bucketQuery)) (orEmpty (q_groupBy bucketQuery))
  = Ok (Some bucketPlan) /\
  createQuery sampleDefinitions bucketQuery
  = Ok (compiled (createQuery sampleDefinitions bucketQuery)) /\
  sqlText (seriesField bucketPlan)
  = dateSeries ^^ " as " ^^ dquote ^^ "timestamp" ^^ dquote /\
  sqlText (p_from bucketPlan)
  = " FROM date_series LEFT JOIN traces t"
    ^^ " ON DATE_TRUNC('day', t.timestamp) = DATE_TRUNC('day', "
    ^^ dateSeries ^^ ")".
Proof.
  split; [reflexivity|]. split; [reflexivity|].
  destruct (@bucket_plan_rewrites_statement sampleDefinitions bucketQuery
              bucketPlan
              (compiled (createQuery sampleDefinitions bucketQuery))
              eq_refl eq_refl)
    as (g & u & fields & groups & groupJ & orders & filterS
        & Hg & Hu & _ & Hseries & _ & Hfrom & _).
  vm_compute in Hg. injection Hg as <-.
  vm_compute in Hu. injection Hu as <-.
  split; [exact Hseries | exact Hfrom].
Defined.

Lemma semantic_violations_fail_witness :
  createQuery sampleDefinitions twoDatetimeQuery
  = Err MultipleDatetimeGroupBy /\
  createQuery sampleDefinitions mismatchedQuery
  = Err MismatchedRangeColumn.
Proof.
  split.
  - apply (proj1 (semantic_violations_fail sampleDefinitions
                    twoDatetimeQuery)).
    simpl. apply le_n.
  - apply (proj2 (semantic_violations_fail sampleDefinitions
                    mismatchedQuery)
             (byDay "timestamp") "day"
             (dateFilter "startTime" ">=" 100)
             (dateFilter "startTime" "<" 200));
      try reflexivity.
    left. intros H. discriminate H.
Defined.

(** C7.  The query [unboundedQuery] has one datetime group-by and no
    datetime filter: no plan is produced and no series is declared or
    joined, and yet the GROUP BY clause names [date_series."date"], not
    the expression [t.timestamp] of the column; the same holds when the
    tenant filter is added, and for [oneBoundQuery], which has a single
    datetime filter. *)
Theorem datetime_group_by_without_range :
  createDateRangeCte sampleDefinitions traces
    (orEmpty (q_filter unboundedQuery)) (orEmpty (q_groupBy unboundedQuery))
  = Ok None /\
  prepareGroupBy sampleDefinitions traces (byDay "timestamp")
  = Ok (raw dateSeries) /\
  resultMap internal (getColumnDefinition sampleDefinitions traces
                        "timestamp") = Ok "t.timestamp" /\
  resultMap sqlText (createQuery sampleDefinitions unboundedQuery)
  = Ok (" SELECT COUNT(t.id) as " ^^ dquote ^^ "countId" ^^ dquote
        ^^ " FROM traces t"
        ^^ " GROUP BY date_series." ^^ dquote ^^ "date" ^^ dquote ^^ ";")
  /\
  resultMap sqlText
    (enrichAndCreateQuery sampleDefinitions "project-1" unboundedQuery)
  = Ok (" SELECT COUNT(t.id) as " ^^ dquote ^^ "countId" ^^ dquote
        ^^ " FROM traces t  WHERE  t.project_id = $1 "
        ^^ " GROUP BY date_series." ^^ dquote ^^ "date" ^^ dquote ^^ ";")
  /\
  createDateRangeCte sampleDefinitions traces
    (orEmpty (q_filter oneBoundQuery)) (orEmpty (q_groupBy oneBoundQuery))
  = Ok None /\
  resultMap sqlText (createQuery sampleDefinitions oneBoundQuery)
  = Ok (" SELECT COUNT(t.id) as " ^^ dquote ^^ "countId" ^^ dquote
        ^^ " FROM traces t  WHERE  t.timestamp >= $1"
        ^^ " GROUP BY date_series." ^^ dquote ^^ "date" ^^ dquote ^^ ";").
Proof. repeat split; vm_compute; reflexivity. Qed.


Lemma outputParser_normalizes_witness :
  (exists out,
     outputParser [[("count", JBigInt 3); ("name", JString "a")];
                   [("count", JBigInt 5); ("name", JNull)]] = Ok out /\
     Forall2 (Forall2 normalisedCell)
       [[("count", JBigInt 3); ("name", JString "a")];
        [("count", JBigInt 5); ("name", JNull)]] out) /\
  (exists v,
     outputParser [[("count", JBigInt 3); ("flag", JBoolean true)]]
     = Err (UnknownType (typeof v)) /\
     recognised v = false).
Proof.
  split.
  - apply (proj1 (outputParser_normalizes
                    [[("count", JBigInt 3); ("name", JString "a")];
                     [("count", JBigInt 5); ("name", JNull)]])).
    repeat constructor.
  - apply (proj1 (proj2 (outputParser_normalizes
                           [[("count", JBigInt 3);
                             ("flag", JBoolean true)]]))).
    apply Exists_cons_hd. apply Exists_cons_tl. apply Exists_cons_hd.
    reflexivity.
Defined.

(* ================================================================== *)
(** ** Further facts about the compiler *)

Section MoreFacts.

Variable defs : TableName -> TableDefinition.

(* ------------------------------------------------------------------ *)
(** *** Mapping a function that may throw *)

Lemma mapM_Err {A B} (f : A -> result B) (xs : list A) (e : Error) :
  mapM f xs = Err e -> exists x, In x xs /\ f x = Err e.
Proof.
  induction xs as [|x xs IH]; simpl; [discriminate|].
  destruct (f x) as [y|e'] eqn:Ex; simpl.
  - destruct (mapM f xs) as [ys|e'']; simpl; [discriminate|].
    intros H. injection H as <-. destruct (IH eq_refl) as (x' & Hin & Hx').
    eauto.
  - intros H. injection H as <-. eauto.
Qed.

Lemma mapM_Ok_of_Forall {A B} (f : A -> result B) (xs : list A) :
  Forall (fun x => exists y, f x = Ok y) xs ->
  exists ys, mapM f xs = Ok ys /\ List.length ys = List.length xs.
Proof.
  induction 1 as [|x xs (y & Hy) _ (ys & Hys & Hl)]; simpl.
  - exists []. auto.
  - rewrite Hy, Hys. simpl. exists (y :: ys). simpl. auto.
Qed.

Lemma mapM_Forall_Ok {A B} (f : A -> result B) (xs : list A)
  (ys : list B) :
  mapM f xs = Ok ys -> Forall (fun x => exists y, f x = Ok y) xs.
Proof.
  intros H. apply mapM_Ok_Forall2 in H.
  induction H; constructor; eauto.
Qed.

Lemma mapM_first_Err {A B} (f : A -> result B) (pre post : list A)
  (x : A) (e : Error) :
  Forall (fun a => exists y, f a = Ok y) pre ->
  f x = Err e ->
  mapM f (pre ++ x :: post) = Err e.
Proof.
  induction 1 as [|a pre (y & Hy) _ IH]; simpl; intros Hx.
  - now rewrite Hx.
  - rewrite Hy. simpl. now rewrite (IH Hx).
Qed.

Lemma join_cons (x : Sql) (r : list Sql) (sep : string) :
  join (x :: r) sep = Ok (x ++ flat_map (fun y => Raw sep :: y) r).
Proof. reflexivity. Qed.

(* ------------------------------------------------------------------ *)
(** *** When each step succeeds and how it fails *)

Lemma getColumnDefinition_resolves (t : TableName) (c : string) :
  (exists cd, getColumnDefinition defs t c = Ok cd) <-> resolves defs t c.
Proof.
  unfold resolves. split; intros (cd & H); exists cd;
    now apply getColumnDefinition_Ok.
Qed.

Lemma getColumnDefinition_Err (t : TableName) (c : string) (e : Error) :
  getColumnDefinition defs t c = Err e ->
  e = ColumnNotFoundInTable c (tableNameString t) /\
  findColumn (columns (defs t)) c = None.
Proof.
  unfold getColumnDefinition.
  destruct (findColumn (columns (defs t)) c); [discriminate|].
  intros H. injection H as <-. auto.
Qed.

Lemma getColumnDefinition_missing (t : TableName) (c : string) :
  findColumn (columns (defs t)) c = None ->
  getColumnDefinition defs t c
  = Err (ColumnNotFoundInTable c (tableNameString t)).
Proof. unfold getColumnDefinition. now intros ->. Qed.

Lemma selectField_resolves (t : TableName) (f : SelectField) :
  (exists s, selectField defs t f = Ok s) <-> resolves defs t (s_column f).
Proof.
  rewrite <- getColumnDefinition_resolves. unfold selectField.
  destruct (getColumnDefinition defs t (s_column f)) as [cd|e]; simpl.
  - split; [eauto|]. intros _. destruct (truthyAgg (s_agg f)); eauto.
  - split; intros (x & H); discriminate.
Qed.

Lemma selectField_Err (t : TableName) (f : SelectField) (e : Error) :
  selectField defs t f = Err e ->
  getColumnDefinition defs t (s_column f) = Err e.
Proof.
  unfold selectField.
  destruct (getColumnDefinition defs t (s_column f)) as [cd|e']; simpl;
    [|congruence].
  destruct (truthyAgg (s_agg f)); discriminate.
Qed.

Lemma prepareGroupBy_resolves (t : TableName) (g : GroupBy) :
  (exists s, prepareGroupBy defs t g = Ok s)
  <-> resolves defs t (g_column g).
Proof.
  rewrite <- getColumnDefinition_resolves. unfold prepareGroupBy.
  destruct (getColumnDefinition defs t (g_column g)) as [cd|e]; simpl.
  - split; [eauto|]. intros _. destruct (isDatetime (g_type g)); eauto.
  - split; intros (x & H); discriminate.
Qed.

Lemma prepareGroupBy_Err (t : TableName) (g : GroupBy) (e : Error) :
  prepareGroupBy defs t g = Err e ->
  getColumnDefinition defs t (g_column g) = Err e.
Proof.
  unfold prepareGroupBy.
  destruct (getColumnDefinition defs t (g_column g)) as [cd|e']; simpl;
    [|congruence].
  destruct (isDatetime (g_type g)); discriminate.
Qed.

Lemma prepareOrderBy_resolves (t : TableName) (o : OrderBy) :
  (exists s, prepareOrderBy defs t o = Ok s)
  <-> resolves defs t (o_column o).
Proof.
  rewrite <- getColumnDefinition_resolves.
  unfold prepareOrderBy, createAggregatedColumn.
  destruct (getColumnDefinition defs t (o_column o)) as [cd|e]; simpl.
  - split; [eauto|]. intros _.
    destruct (truthyAgg (o_agg o)); simpl; eauto.
  - split; [|intros (x & H); discriminate].
    destruct (truthyAgg (o_agg o)); simpl; intros (x & H); discriminate.
Qed.

Lemma prepareOrderBy_Err (t : TableName) (o : OrderBy) (e : Error) :
  prepareOrderBy defs t o = Err e ->
  getColumnDefinition defs t (o_column o) = Err e.
Proof.
  unfold prepareOrderBy, createAggregatedColumn.
  destruct (getColumnDefinition defs t (o_column o)) as [cd|e']; simpl.
  - destruct (truthyAgg (o_agg o)); discriminate.
  - destruct (truthyAgg (o_agg o)); simpl; congruence.
Qed.

Lemma prepareFilter_resolves (t : TableName) (f : Filter) :
  (exists s, prepareFilter t (columns (defs t)) f = Ok s)
  <-> resolves defs t (f_column f).
Proof.
  unfold resolves, prepareFilter.
  destruct (findColumn (columns (defs t)) (f_column f)) as [cd|].
  - split; [eauto|]. intros _. destruct (isDatetime (f_type f)); eauto.
  - split; intros (x & H); discriminate.
Qed.

Lemma prepareFilter_Err (t : TableName) (f : Filter) (e : Error) :
  prepareFilter t (columns (defs t)) f = Err e ->
  e = ColumnNotFound (f_column f) /\
  findColumn (columns (defs t)) (f_column f) = None.
Proof.
  unfold prepareFilter.
  destruct (findColumn (columns (defs t)) (f_column f)) as [cd|].
  - destruct (isDatetime (f_type f)); discriminate.
  - intros H. injection H as <-. auto.
Qed.

(** The guarded calls of [Prisma.join] never throw. *)
Lemma groupString_mapM (t : TableName) (groupBy : option (list GroupBy))
  (hasCte : bool) :
  groupString defs t groupBy hasCte
  = groups <- mapM (prepareGroupBy defs t) (orEmpty groupBy) ;;
    match groups with
    | [] => Ok empty
    | x :: r =>
        Ok (raw " GROUP BY " ++ x ++ flat_map (fun y => Raw ", " :: y) r)
    end.
Proof.
  unfold groupString.
  destruct (orEmpty groupBy) as [|g gs] eqn:E; simpl.
  - destruct hasCte; reflexivity.
  - destruct (prepareGroupBy defs t g); simpl; [|reflexivity].
    destruct (mapM (prepareGroupBy defs t) gs); reflexivity.
Qed.

Lemma selectString_Ok (fields : list Sql) :
  selectString fields
  = Ok (match fields with
        | [] => empty
        | x :: r =>
            raw " SELECT " ++ x ++ flat_map (fun y => Raw ", " :: y) r
        end).
Proof. destruct fields; reflexivity. Qed.

Lemma prepareOrderByString_mapM (t : TableName)
  (orderBy : option (list OrderBy)) (hasCte : bool) :
  prepareOrderByString defs t orderBy hasCte
  = orders <- mapM (prepareOrderBy defs t) (orEmpty orderBy) ;;
    match (if hasCte then raw (dateSeries ^^ " ASC") :: orders
           else orders) with
    | [] => Ok empty
    | x :: r =>
        Ok (raw " ORDER BY " ++ x ++ flat_map (fun y => Raw ", " :: y) r)
    end.
Proof.
  unfold prepareOrderByString.
  destruct (mapM (prepareOrderBy defs t) (orEmpty orderBy)) as [os|e];
    simpl; [|reflexivity].
  destruct hasCte; [reflexivity|]. destruct os; reflexivity.
Qed.

Lemma filterString_mapM (t : TableName) (filter : option (list Filter))
  (hasCte : bool) :
  filterString defs t filter hasCte
  = compiled <- mapM (prepareFilter t (columns (defs t)))
                  (orEmpty filter) ;;
    match compiled with
    | [] => Ok empty
    | x :: r =>
        Ok (raw " " ++ (if hasCte then raw " AND " else raw " WHERE ")
            ++ raw " " ++ x ++ flat_map (fun y => Raw " AND " :: y) r)
    end.
Proof.
  unfold filterString, prepareFilterString.
  destruct filter as [[|f fs]|]; simpl; try reflexivity.
  destruct (prepareFilter t (columns (defs t)) f); simpl; [|reflexivity].
  destruct (mapM (prepareFilter t (columns (defs t))) fs); reflexivity.
Qed.

Lemma createDateRangeCte_Err (from : TableName) (filters : list Filter)
  (groupBy : list GroupBy) (e : Error) :
  createDateRangeCte defs from filters groupBy = Err e ->
  e = MultipleDatetimeGroupBy \/ e = MismatchedRangeColumn \/
  missingColumn defs from e.
Proof.
  unfold createDateRangeCte.
  destruct (List.filter _ groupBy) as [|g [|g' gs]]; try discriminate.
  - destruct (g_temporalUnit g); [|discriminate].
    destruct (minDateColumn filters) as [lo|]; [|discriminate].
    destruct (maxDateColumn filters) as [hi|]; [|discriminate].
    destruct (_ || _).
    + intros H. injection H as <-. auto.
    + destruct (getColumnDefinition defs from (f_column lo)) as [cd|e']
        eqn:E; simpl; [discriminate|].
      intros H. injection H as <-.
      apply getColumnDefinition_Err in E. destruct E as [-> Hn].
      right. right. exists (f_column lo). auto.
  - intros H. injection H as <-. auto.
Qed.

Lemma missing_of_getColumnDefinition (t : TableName) (c : string)
  (e : Error) :
  getColumnDefinition defs t c = Err e -> missingColumn defs t e.
Proof.
  intros H. apply getColumnDefinition_Err in H. destruct H as [-> Hn].
  exists c. auto.
Qed.

Lemma Forall_resolves_map {A B} (f : A -> result B) (col : A -> string)
  (t : TableName) (xs : list A) :
  (forall x, (exists y, f x = Ok y) <-> resolves defs t (col x)) ->
  Forall (fun x => exists y, f x = Ok y) xs
  <-> Forall (fun x => resolves defs t (col x)) xs.
Proof.
  intros H. split; intros F; induction F; constructor; auto;
    now apply H.
Qed.

Lemma createQuery_Ok_columns (q : Query) (sql : Sql) :
  createQuery defs q = Ok sql ->
  (exists cte,
     createDateRangeCte defs (q_from q) (orEmpty (q_filter q))
       (orEmpty (q_groupBy q)) = Ok cte) /\
  Forall (fun f => resolves defs (q_from q) (s_column f)) (q_select q) /\
  Forall (fun g => resolves defs (q_from q) (g_column g))
    (orEmpty (q_groupBy q)) /\
  Forall (fun o => resolves defs (q_from q) (o_column o))
    (orEmpty (q_orderBy q)) /\
  Forall (fun f => resolves defs (q_from q) (f_column f))
    (orEmpty (q_filter q)).
Proof.
  intros H. apply createQuery_inv in H.
  destruct H as (cte & fields & groupS & selectS & orderByS & filterS
                 & Hcte & Hf & Hg & _ & Ho & Hfl & _).
  rewrite groupString_mapM in Hg. rewrite prepareOrderByString_mapM in Ho.
  rewrite filterString_mapM in Hfl.
  inv_bind Hg. inv_bind Ho. inv_bind Hfl.
  split; [eauto|].
  split; [|split; [|split]].
  - apply (@Forall_resolves_map _ _ _ _ _ _ (selectField_resolves (q_from q))).
    eapply mapM_Forall_Ok; eauto.
  - apply (@Forall_resolves_map _ _ _ _ _ _ (prepareGroupBy_resolves (q_from q))).
    eapply mapM_Forall_Ok; eauto.
  - apply (@Forall_resolves_map _ _ _ _ _ _ (prepareOrderBy_resolves (q_from q))).
    eapply mapM_Forall_Ok; eauto.
  - apply (@Forall_resolves_map _ _ _ _ _ _ (prepareFilter_resolves (q_from q))).
    eapply mapM_Forall_Ok; eauto.
Qed.

Lemma createQuery_Ok_of_columns (q : Query) (cte : option BucketPlan) :
  createDateRangeCte defs (q_from q) (orEmpty (q_filter q))
    (orEmpty (q_groupBy q)) = Ok cte ->
  Forall (fun f => resolves defs (q_from q) (s_column f)) (q_select q) ->
  Forall (fun g => resolves defs (q_from q) (g_column g))
    (orEmpty (q_groupBy q)) ->
  Forall (fun o => resolves defs (q_from q) (o_column o))
    (orEmpty (q_orderBy q)) ->
  Forall (fun f => resolves defs (q_from q) (f_column f))
    (orEmpty (q_filter q)) ->
  exists sql, createQuery defs q = Ok sql.
Proof.
  intros Hcte Hs Hg Ho Hf.
  apply (@Forall_resolves_map _ _ _ _ _ _ (selectField_resolves (q_from q))) in Hs.
  apply (@Forall_resolves_map _ _ _ _ _ _ (prepareGroupBy_resolves (q_from q)))
    in Hg.
  apply (@Forall_resolves_map _ _ _ _ _ _ (prepareOrderBy_resolves (q_from q)))
    in Ho.
  apply (@Forall_resolves_map _ _ _ _ _ _ (prepareFilter_resolves (q_from q)))
    in Hf.
  destruct (mapM_Ok_of_Forall _ Hs) as (fields & Efields & _).
  destruct (mapM_Ok_of_Forall _ Hg) as (groups & Egroups & _).
  destruct (mapM_Ok_of_Forall _ Ho) as (orders & Eorders & _).
  destruct (mapM_Ok_of_Forall _ Hf) as (filters & Efilters & _).
  unfold createQuery. rewrite Hcte. simpl. rewrite Efields. simpl.
  rewrite groupString_mapM, Egroups. simpl.
  rewrite selectString_Ok. simpl.
  rewrite prepareOrderByString_mapM, Eorders. simpl.
  rewrite filterString_mapM, Efilters. simpl.
  destruct cte, groups, orders, filters; simpl; eauto.
Qed.

(* ------------------------------------------------------------------ *)
(** *** The exceptions of a compilation *)

(** X1.  A compilation can only fail in three ways: more than one
    datetime group-by, range filters on another column than the one
    grouped by, or a column (named in the exception) that the registry
    entry of the table does not have.  The [TypeError] of [Prisma.join]
    on an empty array never comes up: each call is guarded.  This holds
    for [createQuery] and for [enrichAndCreateQuery]. *)
Theorem compile_failures (projectId : string) (q : Query) (e : Error) :
  createQuery defs q = Err e \/
  enrichAndCreateQuery defs projectId q = Err e ->
  (e = MultipleDatetimeGroupBy \/ e = MismatchedRangeColumn \/
   missingColumn defs (q_from q) e) /\
  e <> JoinEmptyArray.
Proof.
  assert (Hmain : forall q', createQuery defs q' = Err e ->
            e = MultipleDatetimeGroupBy \/ e = MismatchedRangeColumn \/
            missingColumn defs (q_from q') e).
  { intros q'. unfold createQuery.
    destruct (createDateRangeCte defs (q_from q') (orEmpty (q_filter q'))
                (orEmpty (q_groupBy q'))) as [cte|e0] eqn:Ecte; simpl.
    2:{ intros H. injection H as <-.
        exact (createDateRangeCte_Err _ _ _ Ecte). }
    destruct (mapM (selectField defs (q_from q')) (q_select q'))
      as [fields|e0] eqn:Ef; cbn [bind].
    2:{ intros H. injection H as <-. apply mapM_Err in Ef.
        destruct Ef as (x & _ & Hx). apply selectField_Err in Hx.
        right. right. eapply missing_of_getColumnDefinition; eauto. }
    rewrite groupString_mapM.
    destruct (mapM (prepareGroupBy defs (q_from q')) _)
      as [groups|e0] eqn:Eg; cbn [bind].
    2:{ intros H. injection H as <-. apply mapM_Err in Eg.
        destruct Eg as (x & _ & Hx). apply prepareGroupBy_Err in Hx.
        right. right. eapply missing_of_getColumnDefinition; eauto. }
    assert (Hgs : exists gS,
               match groups with
               | [] => Ok empty
               | x :: r =>
                   Ok (raw " GROUP BY " ++ x
                       ++ flat_map (fun y => Raw ", " :: y) r)
               end = Ok gS) by (destruct groups; eauto).
    destruct Hgs as (gS & ->). cbn [bind].
    rewrite selectString_Ok. cbn [bind].
    rewrite prepareOrderByString_mapM.
    destruct (mapM (prepareOrderBy defs (q_from q')) _)
      as [orders|e0] eqn:Eo; cbn [bind].
    2:{ intros H. injection H as <-. apply mapM_Err in Eo.
        destruct Eo as (x & _ & Hx). apply prepareOrderBy_Err in Hx.
        right. right. eapply missing_of_getColumnDefinition; eauto. }
    assert (Hos : exists oS,
               match (if isSome cte
                      then raw (dateSeries ^^ " ASC") :: orders
                      else orders) with
               | [] => Ok empty
               | x :: r =>
                   Ok (raw " ORDER BY " ++ x
                       ++ flat_map (fun y => Raw ", " :: y) r)
               end = Ok oS)
      by (destruct (if isSome cte then _ else _); eauto).
    destruct Hos as (oS & ->). cbn [bind].
    rewrite filterString_mapM.
    destruct (mapM (prepareFilter (q_from q') _) _)
      as [filters|e0] eqn:Efl; cbn [bind].
    2:{ intros H. injection H as <-. apply mapM_Err in Efl.
        destruct Efl as (x & _ & Hx). apply prepareFilter_Err in Hx.
        destruct Hx as [-> Hn].
        right. right. exists (f_column x). auto. }
    destruct filters; cbn [bind]; discriminate. }
  intros H.
  assert (H3 : e = MultipleDatetimeGroupBy \/ e = MismatchedRangeColumn \/
               missingColumn defs (q_from q) e).
  { destruct H as [H|H]; [exact (Hmain _ H)|].
    rewrite enrich_unfold in H. exact (Hmain _ H). }
  split; [exact H3|].
  destruct H3 as [->|[->|(c & _ & [->| ->])]]; discriminate.
Qed.

(** X2.  A query compiles exactly when the planner does not throw and
    every column named in its select list, its group-by list, its
    order-by list and its filter list is in the registry entry of the
    table. *)
Theorem compiles_iff_columns_resolve (q : Query) :
  (exists sql, createQuery defs q = Ok sql) <->
  (exists cte,
     createDateRangeCte defs (q_from q) (orEmpty (q_filter q))
       (orEmpty (q_groupBy q)) = Ok cte) /\
  Forall (fun f => resolves defs (q_from q) (s_column f)) (q_select q) /\
  Forall (fun g => resolves defs (q_from q) (g_column g))
    (orEmpty (q_groupBy q)) /\
  Forall (fun o => resolves defs (q_from q) (o_column o))
    (orEmpty (q_orderBy q)) /\
  Forall (fun f => resolves defs (q_from q) (f_column f))
    (orEmpty (q_filter q)).
Proof.
  split.
  - intros (sql & H). exact (createQuery_Ok_columns _ H).
  - intros ((cte & Hcte) & Hs & Hg & Ho & Hf).
    exact (createQuery_Ok_of_columns _ Hcte Hs Hg Ho Hf).
Qed.

(** X3.  When the planner does not throw, the first selected column that
    the registry entry of the table lacks makes [createQuery] throw
    "Column <column> not found in table <table>", whatever the rest of
    the query. *)
Theorem unknown_select_column (q : Query) (cte : option BucketPlan)
  (pre post : list SelectField) (f : SelectField) :
  createDateRangeCte defs (q_from q) (orEmpty (q_filter q))
    (orEmpty (q_groupBy q)) = Ok cte ->
  q_select q = pre ++ f :: post ->
  Forall (fun x => resolves defs (q_from q) (s_column x)) pre ->
  findColumn (columns (defs (q_from q))) (s_column f) = None ->
  createQuery defs q
  = Err (ColumnNotFoundInTable (s_column f) (tableNameString (q_from q)))
  /\
  errorMessage
    (ColumnNotFoundInTable (s_column f) (tableNameString (q_from q)))
  = "Column " ^^ s_column f ^^ " not found in table "
    ^^ tableNameString (q_from q).
Proof.
  intros Hcte Hsel Hpre Hf. split; [|reflexivity].
  unfold createQuery. rewrite Hcte. cbn [bind]. rewrite Hsel.
  rewrite (@mapM_first_Err _ _ (selectField defs (q_from q)) pre post f
             (ColumnNotFoundInTable (s_column f)
                (tableNameString (q_from q)))).
  - reflexivity.
  - now apply (@Forall_resolves_map _ _ _ _ _ _
                 (selectField_resolves (q_from q))).
  - unfold selectField. now rewrite (getColumnDefinition_missing _ _ Hf).
Qed.

(** X4.  When the planner does not throw and the columns of the select,
    group-by and order-by lists are in the registry, the first filter on
    a column that the registry entry of the table lacks makes
    [createQuery] throw "Column <column> not found", the message of
    [prepareFilterString], which does not name the table. *)
Theorem unknown_filter_column (q : Query) (cte : option BucketPlan)
  (pre post : list Filter) (f : Filter) :
  createDateRangeCte defs (q_from q) (orEmpty (q_filter q))
    (orEmpty (q_groupBy q)) = Ok cte ->
  Forall (fun x => resolves defs (q_from q) (s_column x)) (q_select q) ->
  Forall (fun g => resolves defs (q_from q) (g_column g))
    (orEmpty (q_groupBy q)) ->
  Forall (fun o => resolves defs (q_from q) (o_column o))
    (orEmpty (q_orderBy q)) ->
  orEmpty (q_filter q) = pre ++ f :: post ->
  Forall (fun x => resolves defs (q_from q) (f_column x)) pre ->
  findColumn (columns (defs (q_from q))) (f_column f) = None ->
  createQuery defs q = Err (ColumnNotFound (f_column f)) /\
  errorMessage (ColumnNotFound (f_column f))
  = "Column " ^^ f_column f ^^ " not found".
Proof.
  intros Hcte Hs Hg Ho Hfl Hpre Hf. split; [|reflexivity].
  apply (@Forall_resolves_map _ _ _ _ _ _
           (selectField_resolves (q_from q))) in Hs.
  apply (@Forall_resolves_map _ _ _ _ _ _
           (prepareGroupBy_resolves (q_from q))) in Hg.
  apply (@Forall_resolves_map _ _ _ _ _ _
           (prepareOrderBy_resolves (q_from q))) in Ho.
  apply (@Forall_resolves_map _ _ _ _ _ _
           (prepareFilter_resolves (q_from q))) in Hpre.
  destruct (mapM_Ok_of_Forall _ Hs) as (fields & Efields & _).
  destruct (mapM_Ok_of_Forall _ Hg) as (groups & Egroups & _).
  destruct (mapM_Ok_of_Forall _ Ho) as (orders & Eorders & _).
  unfold createQuery. rewrite Hcte. cbn [bind]. rewrite Efields.
  cbn [bind]. rewrite groupString_mapM, Egroups. cbn [bind].
  rewrite selectString_Ok, prepareOrderByString_mapM, Eorders.
  rewrite filterString_mapM, Hfl.
  rewrite (@mapM_first_Err _ _ (prepareFilter (q_from q)
                                  (columns (defs (q_from q))))
             pre post f (ColumnNotFound (f_column f)) Hpre).
  - destruct cte, groups, orders; reflexivity.
  - unfold prepareFilter. now rewrite Hf.
Qed.

(* ------------------------------------------------------------------ *)
(** *** What the planner reads *)

Lemma filter_idem {A} (p : A -> bool) (l : list A) :
  List.filter p (List.filter p l) = List.filter p l.
Proof.
  induction l as [|x l IH]; simpl; auto.
  destruct (p x) eqn:E; simpl; rewrite ?E, IH; reflexivity.
Qed.

Lemma createDateRangeCte_bounds (from : TableName)
  (fs fs' : list Filter) (groupBy : list GroupBy) :
  minDateColumn fs = minDateColumn fs' ->
  maxDateColumn fs = maxDateColumn fs' ->
  createDateRangeCte defs from fs groupBy
  = createDateRangeCte defs from fs' groupBy.
Proof.
  intros Hmin Hmax. unfold createDateRangeCte. now rewrite Hmin, Hmax.
Qed.

(** X5.  The planner only reads the datetime filters: dropping every
    other filter does not change its result, and neither does appending
    the mandatory tenant filters, so the tenant scoping never creates,
    removes or alters a bucket plan. *)
Theorem planner_reads_datetime_filters_only (from : TableName)
  (projectId : string) (filters : list Filter) (groupBy : list GroupBy) :
  createDateRangeCte defs from (List.filter isTimeRangeFilter filters)
    groupBy
  = createDateRangeCte defs from filters groupBy /\
  createDateRangeCte defs from
    (filters ++ getMandatoryFilter from projectId) groupBy
  = createDateRangeCte defs from filters groupBy.
Proof.
  split; apply createDateRangeCte_bounds;
    unfold minDateColumn, maxDateColumn; cbv zeta;
    rewrite ?filter_idem, ?filter_app;
    try reflexivity;
    replace (List.filter isTimeRangeFilter
               (getMandatoryFilter from projectId)) with (@nil Filter)
      by (destruct from; reflexivity);
    rewrite app_nil_r; reflexivity.
Qed.

(* ------------------------------------------------------------------ *)
(** *** One compiled filter *)

(** X7.  A filter on a column of the registry compiles to the column
    expression, the operator and one bound value.  A datetime filter
    stops there; any other filter is followed by a space and, only for
    the column named type of the table observations, by the cast
    [::"ObservationType"]. *)
Theorem observation_type_cast (t : TableName) (f : Filter)
  (cd : ColumnDefinition) :
  findColumn (columns (defs t)) (f_column f) = Some cd ->
  exists s,
    prepareFilter t (columns (defs t)) f = Ok s /\
    sqlValues s = [f_value f] /\
    (f_type f = TDatetime ->
     sqlText s = internal cd ^^ " " ^^ f_operator f ^^ " $1") /\
    (f_type f <> TDatetime -> t = observations -> f_column f = "type" ->
     sqlText s = internal cd ^^ " " ^^ f_operator f ^^ " $1 ::"
                 ^^ dquote ^^ "ObservationType" ^^ dquote) /\
    (f_type f <> TDatetime -> t <> observations \/ f_column f <> "type" ->
     sqlText s = internal cd ^^ " " ^^ f_operator f ^^ " $1 ").
Proof.
  intros Hf. pose proof (findColumn_name _ _ Hf) as Hn.
  unfold prepareFilter. rewrite Hf, Hn.
  assert (Hcast : (String.eqb (f_column f) "type"
                   && match t with observations => true | _ => false end)
                  = true <-> (t = observations /\ f_column f = "type")).
  { rewrite Bool.andb_true_iff, String.eqb_eq.
    destruct t; split; intros [H1 H2]; split; auto; discriminate. }
  destruct (String.eqb (f_column f) "type"
            && match t with observations => true | _ => false end)
    eqn:Eb.
  - destruct (proj1 Hcast eq_refl) as [Ht Hc].
    destruct (f_type f) eqn:Et; simpl; eexists;
      (split; [reflexivity|]); (split; [reflexivity|]);
      unfold sqlText; simpl;
      repeat (rewrite ?append_assoc, ?append_empty_r; simpl);
      repeat split; intros; try reflexivity; try congruence;
      match goal with
      | H : _ \/ _ |- _ => destruct H; congruence
      end.
  - assert (Hno : ~ (t = observations /\ f_column f = "type")).
    { intros H. apply Hcast in H. discriminate. }
    destruct (f_type f) eqn:Et; simpl; eexists;
      (split; [reflexivity|]); (split; [reflexivity|]);
      unfold sqlText; simpl;
      repeat (rewrite ?append_assoc, ?append_empty_r; simpl);
      repeat split; intros; try reflexivity; try congruence;
      exfalso; apply Hno; auto.
Qed.

(* ------------------------------------------------------------------ *)
(** *** The GROUP BY clause *)

(** X8.  The GROUP BY clause does not depend on whether a plan exists:
    it is absent exactly when the group-by list is empty, and a plan
    never exists with an empty group-by list, so the test on the plan in
    [createQuery] never decides. *)
Theorem group_by_independent_of_plan (from : TableName)
  (groupBy : option (list GroupBy)) :
  (forall hasCte,
     groupString defs from groupBy hasCte
     = groupString defs from groupBy false) /\
  (orEmpty groupBy = [] ->
   forall hasCte, groupString defs from groupBy hasCte = Ok empty) /\
  (forall hasCte s,
     orEmpty groupBy <> [] ->
     groupString defs from groupBy hasCte = Ok s ->
     exists j, s = raw " GROUP BY " ++ j) /\
  (forall filters plan,
     createDateRangeCte defs from filters (orEmpty groupBy)
       = Ok (Some plan) ->
     orEmpty groupBy <> []).
Proof.
  repeat split.
  - intros b. now rewrite !groupString_mapM.
  - intros H b. rewrite groupString_mapM, H. reflexivity.
  - intros b s Hne H. rewrite groupString_mapM in H. inv_bind H.
    destruct x as [|y ys].
    + revert Hne E. destruct (orEmpty groupBy) as [|g gs];
        [contradiction|].
      intros _ E. simpl in E. inv_bind E. inv_bind E. discriminate.
    + injection H as <-. eexists. reflexivity.
  - intros filters plan H Hnil. rewrite Hnil in H. discriminate.
Qed.

(* ------------------------------------------------------------------ *)
(** *** A registry without the tenant column *)

(** X9.  When the registry entry of the table lacks the column of one of
    its mandatory tenant filters, [enrichAndCreateQuery] compiles no
    query at all: it throws rather than leave the tenant predicate
    out. *)
Theorem missing_tenant_column_blocks (projectId : string) (q : Query)
  (f : Filter) :
  In f (getMandatoryFilter (q_from q) projectId) ->
  findColumn (columns (defs (q_from q))) (f_column f) = None ->
  exists e, enrichAndCreateQuery defs projectId q = Err e.
Proof.
  intros Hin Hf.
  destruct (enrichAndCreateQuery defs projectId q) as [sql|e] eqn:E;
    [|eauto].
  exfalso. rewrite enrich_unfold in E.
  apply createQuery_Ok_columns in E.
  destruct E as (_ & _ & _ & _ & Hfl). simpl in Hfl.
  rewrite Forall_forall in Hfl.
  destruct (Hfl f) as (cd & Hcd); [apply in_or_app; auto|].
  congruence.
Qed.

(* ------------------------------------------------------------------ *)
(** *** The text of a statement without a plan *)

Lemma render_app (a b : Sql) : forall n,
  render n (a ++ b)
  = render n a ^^ render (n + List.length (sqlValues a)) b.
Proof.
  induction a as [|[s|v] a IH]; intros n; simpl.
  - now rewrite Nat.add_0_r.
  - now rewrite IH, append_assoc.
  - rewrite IH, append_assoc. simpl. now rewrite Nat.add_succ_r.
Qed.

Lemma render_no_values (a : Sql) :
  sqlValues a = [] -> forall n, render n a = sqlText a.
Proof.
  unfold sqlText. induction a as [|[s|v] a IH]; simpl; intros H n;
    try discriminate; auto.
  now rewrite (IH H n).
Qed.

(** X6.  Without a plan the statement is, in this order, the SELECT
    clause, [ FROM ] and the source expression of the table, the filter
    clause, the GROUP BY clause, the ORDER BY clause, the LIMIT clause and
    a semicolon; the filter clause, when there is a filter, is
    [  WHERE  ] followed by the predicates, whose placeholders start at
    [$1], and the placeholder of the limit comes after those of the
    filters. *)
Theorem statement_without_plan (q : Query) (sql : Sql) :
  createDateRangeCte defs (q_from q) (orEmpty (q_filter q))
    (orEmpty (q_groupBy q)) = Ok None ->
  createQuery defs q = Ok sql ->
  exists fields selectS filterS groupS orderByS,
    mapM (selectField defs (q_from q)) (q_select q) = Ok fields /\
    selectString fields = Ok selectS /\
    filterString defs (q_from q) (q_filter q) false = Ok filterS /\
    groupString defs (q_from q) (q_groupBy q) false = Ok groupS /\
    prepareOrderByString defs (q_from q) (q_orderBy q) false
      = Ok orderByS /\
    sqlText sql =
      sqlText selectS ^^ " FROM " ^^ table (defs (q_from q))
      ^^ sqlText filterS ^^ sqlText groupS ^^ sqlText orderByS
      ^^ render (S (List.length (orEmpty (q_filter q))))
           (limitString (q_limit q))
      ^^ ";" /\
    (orEmpty (q_filter q) <> [] ->
     exists p,
       prepareFilterString (q_from q) (orEmpty (q_filter q))
         (columns (defs (q_from q))) = Ok p /\
       sqlText filterS = "  WHERE  " ^^ sqlText p).
Proof.
  intros Hplan H. apply createQuery_inv in H.
  destruct H as (cte & fields & groupS & selectS & orderByS & filterS
                 & Hcte & Hf & Hg & Hs & Ho & Hfl & ->).
  rewrite Hplan in Hcte. injection Hcte as <-. simpl in Hg, Hs, Ho, Hfl.
  exists fields, selectS, filterS, groupS, orderByS.
  repeat (split; [assumption|]).
  pose proof (mapM_plain _ _ (@selectField_values defs (q_from q)) Hf)
    as Hp.
  pose proof (selectString_values _ Hp Hs) as Vs.
  pose proof (groupString_values _ _ _ _ Hg) as Vg.
  pose proof (prepareOrderByString_values _ _ _ _ Ho) as Vo.
  pose proof (filterString_values _ _ _ _ Hfl) as Vf.
  split.
  - unfold sqlText at 1. simpl app.
    rewrite render_app, Vs. cbn [render List.length Nat.add].
    rewrite !render_app, Vf, Vg, Vo. cbn [List.length].
    rewrite length_map, !Nat.add_0_r.
    rewrite (render_no_values _ Vg), (render_no_values _ Vo).
    cbn [render raw Nat.add].
    repeat (rewrite ?append_assoc, ?append_empty_r; simpl).
    reflexivity.
  - intros Hne. unfold filterString in Hfl.
    destruct (q_filter q) as [[|f fs]|]; try (exfalso; now apply Hne).
    inv_bind Hfl. injection Hfl as <-. exists x. split; [exact E|].
    reflexivity.
Qed.

(* ------------------------------------------------------------------ *)
(** *** The LIMIT clause *)

(** X11.  A limit that is acted on changes the statement only at its
    end: the compiled statement is the one of the same query without a
    limit with [ LIMIT $k] put before the semicolon, the limit being the
    last bound parameter and k the number of parameters. *)
Theorem limit_is_last_parameter (q : Query) (sql : Sql) (n : number) :
  createQuery defs q = Ok sql ->
  q_limit q = Some n ->
  truthyNumber n = true ->
  exists body,
    createQuery defs (withLimit q None) = Ok (body ++ raw ";") /\
    sql = body ++ raw " LIMIT " ++ val (VNumber n) ++ raw ";" /\
    sqlValues sql = sqlValues body ++ [VNumber n] /\
    sqlText sql =
      render 1 body ^^ " LIMIT "
      ^^ placeholder (List.length (sqlValues sql)) ^^ ";".
Proof.
  intros H Hl Hn. apply createQuery_inv in H.
  destruct H as (cte & fields & groupS & selectS & orderByS & filterS
                 & Hcte & Hf & Hg & Hs & Ho & Hfl & ->).
  rewrite Hl. unfold limitString. rewrite Hn.
  exists ((match cte with Some plan => p_cte plan | None => empty end)
          ++ selectS
          ++ (match cte with
              | Some plan => p_from plan
              | None => raw " FROM " ++ getTableSql defs (q_from q)
              end)
          ++ filterS ++ groupS ++ orderByS).
  split; [|split; [|split]].
  - unfold createQuery. simpl. rewrite Hcte. cbn [bind].
    rewrite Hf. cbn [bind]. rewrite Hg. cbn [bind]. rewrite Hs.
    cbn [bind]. rewrite Ho. cbn [bind]. rewrite Hfl. cbn [bind].
    f_equal. rewrite <- !app_assoc. reflexivity.
  - now rewrite <- !app_assoc.
  - rewrite !sqlValues_app. simpl. rewrite <- !app_assoc. reflexivity.
  - set (body := _ ++ selectS ++ _ ++ filterS ++ groupS ++ orderByS).
    replace (_ ++ selectS ++ _ ++ filterS ++ groupS ++ orderByS
             ++ (raw " LIMIT " ++ val (VNumber n)) ++ raw ";")
      with (body ++ raw " LIMIT " ++ val (VNumber n) ++ raw ";")
      by (unfold body; now rewrite <- !app_assoc).
    unfold sqlText. rewrite render_app, sqlValues_app. simpl.
    rewrite length_app. simpl. rewrite Nat.add_1_r. reflexivity.
Qed.

(* ------------------------------------------------------------------ *)
(** *** Selecting and ordering by the same column *)

(** X14.  For a column and an optional aggregation, the SELECT entry is
    the expression of [createAggregatedColumn] followed by [ as ] and the
    quoted alias, and the ORDER BY term is that same expression followed
    by the direction; the three fail together, with the same exception,
    when the registry lacks the column. *)
Theorem select_and_order_share_expression (t : TableName)
  (c : string) (agg : option string) (direction : string) :
  resultMap sqlText
    (selectField defs t {| s_column := c; s_agg := agg |})
  = resultMap
      (fun e => sqlText e ^^ " as " ^^ dquote ^^ aliasOf c agg ^^ dquote)
      (createAggregatedColumn defs t c agg) /\
  resultMap sqlText
    (prepareOrderBy defs t
       {| o_column := c; o_agg := agg; o_direction := direction |})
  = resultMap (fun e => sqlText e ^^ " " ^^ direction)
      (createAggregatedColumn defs t c agg).
Proof.
  unfold selectField, prepareOrderBy, createAggregatedColumn, aliasOf.
  simpl.
  destruct (getColumnDefinition defs t c) as [cd|e] eqn:E; simpl.
  - rewrite (getColumnDefinition_name _ _ _ E).
    destruct (truthyAgg agg) as [a|]; simpl; unfold sqlText; simpl;
      repeat (rewrite ?append_assoc, ?append_empty_r; simpl);
      split; reflexivity.
  - destruct (truthyAgg agg); simpl; split; reflexivity.
Qed.

(* ------------------------------------------------------------------ *)
(** *** When a plan exists *)

Lemma cteString_text (lo hi : Value) (u : string) :
  sqlText (cteString lo hi u)
  = newline ^^ "      WITH date_series AS (" ^^ newline
    ^^ "        SELECT generate_series($1, $2, '1 " ^^ u ^^ "') as date"
    ^^ newline ^^ "      )" ^^ newline ^^ "    ".
Proof.
  unfold sqlText, cteString. simpl.
  repeat (rewrite ?append_assoc, ?append_empty_r; simpl). reflexivity.
Qed.

Lemma two_datetime_filters (filters : list Filter) (lo : Filter) :
  minDateColumn filters = Some lo ->
  2 <= List.length (List.filter isTimeRangeFilter filters).
Proof.
  unfold minDateColumn. cbv zeta.
  destruct (Nat.ltb_spec 1
              (List.length (List.filter isTimeRangeFilter filters)));
    [auto | discriminate].
Qed.

Lemma isLowerBound_true (x : Filter) :
  isLowerBound x = true -> f_operator x = ">" \/ f_operator x = ">=".
Proof.
  unfold isLowerBound. rewrite Bool.orb_true_iff, !String.eqb_eq. auto.
Qed.

Lemma isUpperBound_true (x : Filter) :
  isUpperBound x = true -> f_operator x = "<" \/ f_operator x = "<=".
Proof.
  unfold isUpperBound. rewrite Bool.orb_true_iff, !String.eqb_eq. auto.
Qed.

(** X15.  The planner produces a plan exactly when the group-by list has
    one datetime entry, with a temporal unit, the first datetime filter
    with operator > or >= and the first with operator < or <= are found
    among at least two datetime filters, both are on the column of that
    entry, and the registry has the column.  The plan then binds the
    values of these two filters, in this order, as the bounds of
    generate_series, steps by the unit, and joins on that column. *)
Theorem plan_exists_iff (from : TableName) (filters : list Filter)
  (groupBy : list GroupBy) (plan : BucketPlan) :
  createDateRangeCte defs from filters groupBy = Ok (Some plan) <->
  exists g u lo hi cd,
    List.filter (fun x => isDatetime (g_type x)) groupBy = [g] /\
    g_temporalUnit g = Some u /\
    minDateColumn filters = Some lo /\
    maxDateColumn filters = Some hi /\
    In lo filters /\ In hi filters /\
    f_type lo = TDatetime /\ f_type hi = TDatetime /\
    (f_operator lo = ">" \/ f_operator lo = ">=") /\
    (f_operator hi = "<" \/ f_operator hi = "<=") /\
    2 <= List.length (List.filter isTimeRangeFilter filters) /\
    f_column lo = g_column g /\
    f_column hi = g_column g /\
    findColumn (columns (defs from)) (g_column g) = Some cd /\
    name cd = g_column g /\
    plan = {| p_cte := cteString (f_value lo) (f_value hi) u;
              p_from := modifiedFrom defs from u cd;
              p_column := cd |} /\
    sqlValues (p_cte plan) = [f_value lo; f_value hi] /\
    sqlText (p_cte plan)
    = newline ^^ "      WITH date_series AS (" ^^ newline
      ^^ "        SELECT generate_series($1, $2, '1 " ^^ u
      ^^ "') as date" ^^ newline ^^ "      )" ^^ newline ^^ "    ".
Proof.
  split.
  - intros H. apply createDateRangeCte_Some in H.
    destruct H as (g & u & lo & hi & cd & Hg & Hu & Hlo & Hhi & Hcl & Hch
                   & Hcd & ->).
    destruct (minDateColumn_In _ Hlo) as (Ilo & Olo & Tlo).
    destruct (maxDateColumn_In _ Hhi) as (Ihi & Ohi & Thi).
    exists g, u, lo, hi, cd.
    unfold isTimeRangeFilter in Tlo, Thi.
    repeat split; auto using isLowerBound_true, isUpperBound_true,
      cteString_text.
    + destruct (f_type lo); try discriminate; reflexivity.
    + destruct (f_type hi); try discriminate; reflexivity.
    + eapply two_datetime_filters; eauto.
    + now apply getColumnDefinition_Ok.
    + eapply getColumnDefinition_name; eauto.
  - intros (g & u & lo & hi & cd & Hg & Hu & Hlo & Hhi & _ & _ & _ & _ & _
            & _ & _ & Hcl & Hch & Hcd & _ & -> & _).
    unfold createDateRangeCte. rewrite Hg, Hu, Hlo, Hhi, Hcl, Hch.
    rewrite String.eqb_refl. simpl.
    unfold getColumnDefinition. rewrite Hcd. reflexivity.
Qed.

(* ------------------------------------------------------------------ *)
(** *** Normalised rows *)

Lemma parseCell_Ok (v w : JsValue) :
  parseCell v = Ok w -> converted v w /\ portable w = true.
Proof.
  destruct v; simpl; intros H; try discriminate;
    injection H as <-; auto.
Qed.

Lemma parseCell_portable (w : JsValue) :
  portable w = true -> parseCell w = Ok w.
Proof. destruct w; simpl; intros H; try discriminate; reflexivity. Qed.

Lemma parseRow_Ok (row out : Row) :
  parseRow row = Ok out -> Forall2 normalisedCell row out.
Proof.
  unfold parseRow. intros H. apply mapM_Ok_Forall2 in H.
  induction H as [|kv kv' row out Hkv _ IH]; constructor; auto.
  inv_bind Hkv. injection Hkv as <-. apply parseCell_Ok in E.
  destruct E. repeat split; assumption.
Qed.

Lemma outputParser_Ok (rows out : list Row) :
  outputParser rows = Ok out -> Forall2 (Forall2 normalisedCell) rows out.
Proof.
  unfold outputParser. intros H. apply mapM_Ok_Forall2 in H.
  induction H as [|r r' rows out Hr _ IH]; constructor; auto.
  now apply parseRow_Ok.
Qed.

Lemma parseRow_fixed (row out : Row) :
  Forall2 normalisedCell row out -> parseRow out = Ok out.
Proof.
  unfold parseRow. induction 1 as [|kv kv' row out (_ & _ & Hp) _ IH];
    simpl; [reflexivity|].
  rewrite (parseCell_portable _ Hp). simpl. rewrite IH. simpl.
  now destruct kv'.
Qed.

(** X10.  Normalising is idempotent: the rows that [outputParser]
    returns are returned unchanged when they are normalised again, and
    they keep the number and the keys of the rows they come from. *)
Theorem outputParser_idempotent (rows out : list Row) :
  outputParser rows = Ok out ->
  outputParser out = Ok out /\
  List.length out = List.length rows /\
  map (map fst) out = map (map fst) rows.
Proof.
  intros H. apply outputParser_Ok in H. unfold outputParser.
  induction H as [|r r' rows out Hr _ (IH1 & IH2 & IH3)]; simpl.
  - auto.
  - rewrite (parseRow_fixed Hr). simpl. rewrite IH1. simpl.
    rewrite IH2, IH3. repeat split; auto. f_equal.
    clear - Hr. induction Hr as [|kv kv' r r' (Hk & _) _ IH]; simpl; auto.
    now rewrite Hk, IH.
Qed.

(* ------------------------------------------------------------------ *)
(** *** Running a query *)

Lemma enrich_binds_tenant (projectId : string) (q : Query) (sql : Sql) :
  enrichAndCreateQuery defs projectId q = Ok sql ->
  In (VString projectId) (sqlValues sql).
Proof.
  intros H. rewrite enrich_unfold in H.
  destruct (@createQuery_values defs _ _ H) as (cte & _ & ->). simpl.
  apply in_or_app. right. apply in_or_app. left.
  rewrite map_app. apply in_or_app. right.
  destruct (q_from q); simpl; auto.
Qed.

(** X12.  [executeQuery] hands the client at most one statement.  When
    the compilation throws, the client is not called at all; otherwise
    the one statement it is given is the one [enrichAndCreateQuery]
    compiled for the tenant, so it binds the tenant identifier among its
    parameters. *)
Theorem executed_statement_is_tenant_scoped
  (queryRaw : Sql -> string + list Row) (projectId : string)
  (q : Query) :
  (forall e,
     enrichAndCreateQuery defs projectId q = Err e ->
     executeQuery defs queryRaw projectId q = ([], inl (CompileFailed e)))
  /\
  (forall sql,
     In sql (fst (executeQuery defs queryRaw projectId q)) ->
     fst (executeQuery defs queryRaw projectId q) = [sql] /\
     enrichAndCreateQuery defs projectId q = Ok sql /\
     In (VString projectId) (sqlValues sql)).
Proof.
  unfold executeQuery. split.
  - intros e ->. reflexivity.
  - intros sql.
    destruct (enrichAndCreateQuery defs projectId q) as [s|e] eqn:E;
      simpl; [|contradiction].
    assert (Hs : In sql [s] -> [s] = [sql] /\ Ok s = Ok sql /\
                 In (VString projectId) (sqlValues sql)).
    { intros [<-|[]]. repeat split. eapply enrich_binds_tenant; eauto. }
    destruct (queryRaw s) as [m|response]; simpl; [exact Hs|].
    destruct (outputParser response); simpl; exact Hs.
Qed.


End MoreFacts.

(* ================================================================== *)
(** ** The further facts on the sample registry *)

Lemma compile_failures_witness :
  createQuery sampleDefinitions unknownColumnQuery
  = Err (ColumnNotFoundInTable "nope" "traces") /\
  (ColumnNotFoundInTable "nope" "traces" = MultipleDatetimeGroupBy \/
   ColumnNotFoundInTable "nope" "traces" = MismatchedRangeColumn \/
   missingColumn sampleDefinitions traces
     (ColumnNotFoundInTable "nope" "traces")) /\
  ColumnNotFoundInTable "nope" "traces" <> JoinEmptyArray.
Proof.
  split; [reflexivity|].
  exact (@compile_failures sampleDefinitions "project-1"
           unknownColumnQuery (ColumnNotFoundInTable "nope" "traces")
           (or_introl eq_refl)).
Defined.

Lemma compiles_iff_columns_resolve_witness :
  exists sql, createQuery sampleDefinitions bucketQuery = Ok sql.
Proof.
  apply (proj2 (compiles_iff_columns_resolve sampleDefinitions
                  bucketQuery)).
  split; [eexists; reflexivity|].
  repeat split; repeat constructor; eexists; reflexivity.
Defined.

Lemma unknown_select_column_witness :
  createQuery sampleDefinitions unknownColumnQuery
  = Err (ColumnNotFoundInTable "nope" "traces") /\
  errorMessage (ColumnNotFoundInTable "nope" "traces")
  = "Column nope not found in table traces".
Proof.
  refine (@unknown_select_column sampleDefinitions unknownColumnQuery None
            [{| s_column := "id"; s_agg := None |}]
            [{| s_column := "name"; s_agg := None |}]
            {| s_column := "nope"; s_agg := None |}
            eq_refl eq_refl _ eq_refl).
  repeat constructor. eexists. reflexivity.
Defined.

Lemma unknown_filter_column_witness :
  createQuery sampleDefinitions
    (withFilter (plainQuery traces "id") (Some [amountFilter]))
  = Err (ColumnNotFound "amount") /\
  errorMessage (ColumnNotFound "amount") = "Column amount not found".
Proof.
  refine (@unknown_filter_column sampleDefinitions
            (withFilter (plainQuery traces "id") (Some [amountFilter]))
            None [] [] amountFilter eq_refl _ _ _ eq_refl _ eq_refl);
    repeat constructor.
  eexists. reflexivity.
Defined.

Lemma statement_without_plan_witness :
  createDateRangeCte sampleDefinitions traces [traceFilter "project-1"] []
  = Ok None /\
  exists filterS p,
    filterString sampleDefinitions traces
      (Some [traceFilter "project-1"]) false = Ok filterS /\
    prepareFilterString traces [traceFilter "project-1"]
      (columns (sampleDefinitions traces)) = Ok p /\
    sqlText filterS = "  WHERE  " ^^ sqlText p.
Proof.
  split; [reflexivity|].
  destruct (@statement_without_plan sampleDefinitions
              (withFilter (plainQuery traces "id")
                 (Some [traceFilter "project-1"]))
              (compiled
                 (createQuery sampleDefinitions
                    (withFilter (plainQuery traces "id")
                       (Some [traceFilter "project-1"]))))
              eq_refl eq_refl)
    as (fields & selectS & filterS & groupS & orderByS
        & _ & _ & Hfl & _ & _ & _ & Hw).
  assert (Hne : orEmpty (q_filter
                           (withFilter (plainQuery traces "id")
                              (Some [traceFilter "project-1"]))) <> [])
    by discriminate.
  destruct (Hw Hne) as (p & Hp & Ht).
  exists filterS, p. repeat split; assumption.
Defined.

Lemma observation_type_cast_witness :
  exists s,
    prepareFilter observations (columns (sampleDefinitions observations))
      typeFilter = Ok s /\
    sqlText s = "o.type = $1 ::" ^^ dquote ^^ "ObservationType" ^^ dquote.
Proof.
  destruct (@observation_type_cast sampleDefinitions observations
              typeFilter (col "type" TString "o.type") eq_refl)
    as (s & Hs & _ & _ & Hcast & _).
  exists s. split; [exact Hs|].
  refine (Hcast _ eq_refl eq_refl). discriminate.
Defined.

Lemma group_by_independent_of_plan_witness :
  groupString sampleDefinitions traces (Some []) true = Ok empty /\
  exists j,
    compiled (groupString sampleDefinitions traces
                (Some [byColumn "name"]) false)
    = raw " GROUP BY " ++ j.
Proof.
  destruct (group_by_independent_of_plan sampleDefinitions traces
              (Some [])) as (_ & Hempty & _).
  destruct (group_by_independent_of_plan sampleDefinitions traces
              (Some [byColumn "name"])) as (_ & _ & Hsome & _).
  split; [exact (Hempty eq_refl true)|].
  refine (Hsome false _ _ eq_refl). discriminate.
Defined.

Lemma missing_tenant_column_blocks_witness :
  exists e,
    enrichAndCreateQuery brokenDefinitions "project-1"
      (plainQuery traces "id") = Err e.
Proof.
  refine (@missing_tenant_column_blocks brokenDefinitions "project-1"
            (plainQuery traces "id") (traceFilter "project-1")
            _ eq_refl).
  left. reflexivity.
Defined.

Lemma outputParser_idempotent_witness :
  outputParser [[("countId", JBigInt 3); ("name", JString "a")];
                [("countId", JBigInt 5); ("name", JNull)]]
  = Ok sampleRows /\
  outputParser sampleRows = Ok sampleRows /\
  List.length sampleRows = 2 /\
  map (map fst) sampleRows = [["countId"; "name"]; ["countId"; "name"]].
Proof.
  split; [reflexivity|].
  exact (@outputParser_idempotent
           [[("countId", JBigInt 3); ("name", JString "a")];
            [("countId", JBigInt 5); ("name", JNull)]]
           sampleRows eq_refl).
Defined.

Lemma limit_is_last_parameter_witness :
  createQuery sampleDefinitions
    (withLimit (plainQuery traces "id") (Some (numberOfZ 5)))
  = Ok (compiled
          (createQuery sampleDefinitions
             (withLimit (plainQuery traces "id") (Some (numberOfZ 5)))))
  /\
  exists body,
    createQuery sampleDefinitions
      (withLimit (withLimit (plainQuery traces "id") (Some (numberOfZ 5)))
         None)
    = Ok (body ++ raw ";") /\
    compiled
      (createQuery sampleDefinitions
         (withLimit (plainQuery traces "id") (Some (numberOfZ 5))))
    = body ++ raw " LIMIT " ++ val (VNumber (numberOfZ 5)) ++ raw ";".
Proof.
  split; [reflexivity|].
  destruct (@limit_is_last_parameter sampleDefinitions
              (withLimit (plainQuery traces "id") (Some (numberOfZ 5)))
              (compiled
                 (createQuery sampleDefinitions
                    (withLimit (plainQuery traces "id")
                       (Some (numberOfZ 5)))))
              (numberOfZ 5) eq_refl eq_refl eq_refl)
    as (body & H1 & H2 & _).
  exists body. split; assumption.
Defined.

Lemma executed_statement_is_tenant_scoped_witness :
  fst (executeQuery sampleDefinitions sampleClient "project-1"
         (plainQuery traces "id"))
  = [compiled (enrichAndCreateQuery sampleDefinitions "project-1"
                 (plainQuery traces "id"))] /\
  enrichAndCreateQuery sampleDefinitions "project-1"
    (plainQuery traces "id")
  = Ok (compiled (enrichAndCreateQuery sampleDefinitions "project-1"
                    (plainQuery traces "id"))) /\
  In (VString "project-1")
    (sqlValues (compiled (enrichAndCreateQuery sampleDefinitions
                            "project-1" (plainQuery traces "id")))).
Proof.
  refine (proj2 (@executed_statement_is_tenant_scoped sampleDefinitions
                   sampleClient "project-1" (plainQuery traces "id"))
            _ _).
  left. reflexivity.
Defined.


Lemma plan_exists_iff_witness :
  createDateRangeCte sampleDefinitions traces
    (orEmpty (q_filter bucketQuery)) (orEmpty (q_groupBy bucketQuery))
  = Ok (Some bucketPlan) /\
  2 <= List.length (List.filter isTimeRangeFilter
                      (orEmpty (q_filter bucketQuery))).
Proof.
  split; [reflexivity|].
  destruct (proj1 (plan_exists_iff sampleDefinitions traces
                     (orEmpty (q_filter bucketQuery))
                     (orEmpty (q_groupBy bucketQuery)) bucketPlan)
              eq_refl)
    as (g & u & lo & hi & cd & _ & _ & _ & _ & _ & _ & _ & _ & _ & _
        & H2 & _).
  exact H2.
Defined.

Lemma no_plan_without_range_witness :
  createDateRangeCte sampleDefinitions traces
    [dateFilter "timestamp" ">=" 100] [byDay "timestamp"]
  = Ok None.
Proof.
  refine (@no_plan_without_range sampleDefinitions traces
            [dateFilter "timestamp" ">=" 100] [byDay "timestamp"]
            (byDay "timestamp") eq_refl _).
  left. simpl. apply le_n.
Defined.
